(** * The plugins extension of the remirror manager

    A shallow embedding of [@remirror/core/src/builtins/plugins-extension.ts]:
    the [PluginsExtension] class that collects the ProseMirror plugins of
    every extension, publishes them on the manager store and re-applies them
    to the live editor state.

    The class is stateful.  Its private fields and the manager store it
    writes to are a record that every method takes and returns; a method
    that can throw returns a [completion] carrying the state reached at the
    throw.  Objects that the code compares with [===] carry an object
    identity. *)

From stdpp Require Import gmap strings list fin_maps.

(** ** The host editor library ([@remirror/pm/state])

    ProseMirror is an external collaborator.  Only the part of its contract
    that the class relies on is modelled: keys are fresh tokens made from a
    name, a plugin is an object built from a spec, an editor state holds a
    plugin list and one state field per keyed stateful plugin. *)

Module PM.

(** [new PluginKey(name)]: the serial number makes two keys made from the
    same name different tokens. *)
Record PluginKey := mkPluginKey {
  key_name : string;
  key_serial : nat
}.

#[global] Instance PluginKey_eq_dec : EqDecision PluginKey.
Proof. solve_decision. Defined.

(** The value a plugin keeps in the editor state; opaque here. *)
Definition PluginStateValue := nat.

(** A plugin spec: the optional [key], the initial value of the optional
    [state] field, and the remaining members ([props], [view], ...) as one
    opaque payload. *)
Record PluginSpec := mkPluginSpec {
  spec_key : option PluginKey;
  spec_state : option PluginStateValue;
  spec_rest : nat
}.

(** A plugin object: its identity and the spec it was built from. *)
Record Plugin := mkPlugin {
  plugin_oid : nat;
  plugin_spec : PluginSpec
}.

#[global] Instance PluginSpec_eq_dec : EqDecision PluginSpec.
Proof. solve_decision. Defined.

#[global] Instance Plugin_eq_dec : EqDecision Plugin.
Proof. solve_decision. Defined.

(** [a === b] on plugin objects. *)
Definition same_object (a b : Plugin) : bool :=
  Nat.eqb (plugin_oid a) (plugin_oid b).

(** The allocators behind [new PluginKey] and [new Plugin]. *)
Record Host := mkHost {
  next_key_serial : nat;
  next_oid : nat
}.

Definition new_PluginKey (name : string) (h : Host) : PluginKey * Host :=
  (mkPluginKey name (next_key_serial h),
   mkHost (S (next_key_serial h)) (next_oid h)).

Definition new_Plugin (spec : PluginSpec) (h : Host) : Plugin * Host :=
  (mkPlugin (next_oid h) spec,
   mkHost (next_key_serial h) (S (next_oid h))).

(** The editor state: the document (opaque), the configured plugins and
    the state fields of the keyed plugins. *)
Record EditorState := mkEditorState {
  state_doc : nat;
  state_plugins : list Plugin;
  state_fields : list (PluginKey * PluginStateValue)
}.

(** [key.getState(state)]; [None] is [undefined]. *)
Fixpoint lookup_field (k : PluginKey) (fs : list (PluginKey * PluginStateValue))
  : option PluginStateValue :=
  match fs with
  | [] => None
  | (k', v) :: rest => if decide (k' = k) then Some v else lookup_field k rest
  end.

Definition getState (k : PluginKey) (s : EditorState) : option PluginStateValue :=
  lookup_field k (state_fields s).

(** The field a plugin owns in a reconfigured state: the old value when
    the old state had the field, the initial value otherwise. *)
Definition field_of (old : EditorState) (p : Plugin)
  : option (PluginKey * PluginStateValue) :=
  match spec_key (plugin_spec p), spec_state (plugin_spec p) with
  | Some k, Some init => Some (k, default init (getState k old))
  | _, _ => None
  end.

(** [plugin.key]: the key given in the spec, or a key of the plugin's own
    that no other plugin has. *)
Definition plugin_key (p : Plugin) : PluginKey + nat :=
  match spec_key (plugin_spec p) with
  | Some k => inl k
  | None => inr (plugin_oid p)
  end.

(** [state.reconfigure({ plugins })].  The configuration refuses a list in
    which two entries have the same key, and so a list that holds one plugin
    twice: it throws a [RangeError], which is [None] here. *)
Definition reconfigure (s : EditorState) (plugins : list Plugin)
  : option EditorState :=
  if bool_decide (NoDup (plugin_key <$> plugins))
  then Some (mkEditorState (state_doc s) plugins (omap (field_of s) plugins))
  else None.

(** The editor view: [view.state] and the method [updateState]. *)
Record EditorView := mkEditorView {
  view_state : EditorState
}.

(** [updateState(state)] is a method: it works on [this].  [receiver] is
    the object the call is made on, [Some view] for [view.updateState(state)]
    and [None] for a call of the function value alone, where [this] is
    [undefined] and reading a member of it throws a [TypeError]; that throw
    is [None] here. *)
Definition updateState (receiver : option EditorView) (s : EditorState)
  : option EditorView :=
  match receiver with
  | Some _ => Some (mkEditorView s)
  | None => None
  end.

End PM.

Import PM.

(** ** Constants and helpers of the sibling packages *)

(** Modelled from the spec: the [ManagerPhase] enumeration of
    [@remirror/core-constants], which is not part of the sources at hand.
    The spec gives the order Create, Initialize, View; the phase is the
    ordinal the code compares with [>=]. *)
Module ManagerPhase.
Definition None_ : nat := 0.
Definition Create : nat := 1.
Definition Initialize : nat := 2.
Definition EditorView : nat := 3.
End ManagerPhase.

(** Modelled from the spec: the error codes of [@remirror/core-constants]. *)
Inductive ErrorConstant :=
  | UNKNOWN
  | MANAGER_PHASE_ERROR.

(** What a call can throw: the error [invariant] raises, with the code and
    message it was given, the [TypeError] of reading a member of
    [undefined], or the [RangeError] of the host library. *)
Inductive Exn :=
  | RemirrorError (code : option ErrorConstant) (message : string)
  | TypeError
  | RangeError.

(** Modelled from the spec: [invariant] of [@remirror/core-helpers]; it
    raises the described error when the condition is falsy. *)
Definition invariant (condition : bool) (code : option ErrorConstant)
    (message : string) : option Exn :=
  if condition then None else Some (RemirrorError code message).

(** Modelled from the spec: [getPluginState] of [@remirror/core-utils], the
    lookup of a plugin's state by key in an editor state. *)
Definition getPluginState (key : PluginKey) (state : EditorState)
  : option PluginStateValue :=
  getState key state.

(** The result of a call that reads only. *)
Inductive result (A : Type) :=
  | Ok (a : A)
  | Throw (e : Exn).
Arguments Ok {A} a.
Arguments Throw {A} e.

(** ** Extensions *)

(** The key of [stateGetters]: an extension name or an extension
    constructor (a class, known by its identity). *)
Inductive Identifier :=
  | ByName (name : string)
  | ByConstructor (ctor : positive).

#[global] Instance Identifier_eq_dec : EqDecision Identifier.
Proof. solve_decision. Defined.

#[global] Instance Identifier_countable : Countable Identifier.
Proof.
  refine (inj_countable'
    (fun i => match i with ByName s => inl s | ByConstructor c => inr c end)
    (fun x => match x with inl s => ByName s | inr c => ByConstructor c end) _).
  by intros [].
Defined.

(** The closure [() => getPluginState(key, this.store.getStoreKey('view').state)]:
    all it captures besides the store is the key. *)
Record StateGetter := mkStateGetter {
  getter_key : PluginKey
}.

(** An extension instance.  The creator methods are optional members, given
    by what they return; [options_exclude_plugins] is
    [options.exclude?.plugins].  The last three members are the ones the
    [BaseExtension] interface declares for the manager to fill in. *)
Record Extension := mkExtension {
  ext_name : string;
  ext_constructor : positive;
  createPlugin : option PluginSpec;
  createExternalPlugins : option (list Plugin);
  options_exclude_plugins : option bool;
  pluginKey : option PluginKey;
  getPluginState_field : option StateGetter;
  plugin : option Plugin
}.

(** Truthiness of an optional boolean. *)
Definition truthy (o : option bool) : bool :=
  match o with
  | Some true => true
  | _ => false
  end.

(** ** The manager store *)

(** The methods of the class that are handed out as callables. *)
Inductive BoundMethod :=
  | AddPlugins
  | ReplacePlugin
  | ReconfigureStatePlugins
  | GetStateByName.

(** [this.store]: what the class reads ([managerSettings.exclude?.plugins],
    [phase], [view]) and the keys it writes with [setStoreKey] and
    [setExtensionStore]. *)
Record Store := mkStore {
  managerSettings_exclude_plugins : option bool;
  phase : nat;
  view : option EditorView;
  store_plugins : option (list Plugin);
  store_pluginKeys : option (gmap string PluginKey);
  store_getPluginState : option BoundMethod;
  extensionStore : gmap string BoundMethod
}.

(** ** The class *)

Record PluginsExtension := mkPluginsExtension {
  plugins : list Plugin;
  extensionPlugins : list Plugin;
  pluginKeys : gmap string PluginKey;
  stateGetters : gmap Identifier StateGetter;
  store : Store
}.

(** The outcome of a method that can throw after it has run for a while. *)
Inductive completion :=
  | Normal (this : PluginsExtension)
  | Abrupt (e : Exn) (this : PluginsExtension).

(** Field assignments. *)
Definition set_plugins (v : list Plugin) (this : PluginsExtension) :=
  mkPluginsExtension v (extensionPlugins this) (pluginKeys this)
    (stateGetters this) (store this).

Definition set_extensionPlugins (v : list Plugin) (this : PluginsExtension) :=
  mkPluginsExtension (plugins this) v (pluginKeys this)
    (stateGetters this) (store this).

Definition set_pluginKeys (v : gmap string PluginKey) (this : PluginsExtension) :=
  mkPluginsExtension (plugins this) (extensionPlugins this) v
    (stateGetters this) (store this).

Definition set_stateGetters (v : gmap Identifier StateGetter)
    (this : PluginsExtension) :=
  mkPluginsExtension (plugins this) (extensionPlugins this) (pluginKeys this)
    v (store this).

Definition set_store (v : Store) (this : PluginsExtension) :=
  mkPluginsExtension (plugins this) (extensionPlugins this) (pluginKeys this)
    (stateGetters this) v.

Definition set_pluginKey (k : PluginKey) (e : Extension) : Extension :=
  mkExtension (ext_name e) (ext_constructor e) (createPlugin e)
    (createExternalPlugins e) (options_exclude_plugins e)
    (Some k) (getPluginState_field e) (plugin e).

Definition set_getPluginState (g : StateGetter) (e : Extension) : Extension :=
  mkExtension (ext_name e) (ext_constructor e) (createPlugin e)
    (createExternalPlugins e) (options_exclude_plugins e)
    (pluginKey e) (Some g) (plugin e).

(** [setStoreKey(key, value)] for the three keys the class publishes. *)
Definition setStoreKey_plugins (v : list Plugin) (s : Store) : Store :=
  mkStore (managerSettings_exclude_plugins s) (phase s) (view s)
    (Some v) (store_pluginKeys s) (store_getPluginState s) (extensionStore s).

Definition setStoreKey_pluginKeys (v : gmap string PluginKey) (s : Store) : Store :=
  mkStore (managerSettings_exclude_plugins s) (phase s) (view s)
    (store_plugins s) (Some v) (store_getPluginState s) (extensionStore s).

Definition setStoreKey_getPluginState (v : BoundMethod) (s : Store) : Store :=
  mkStore (managerSettings_exclude_plugins s) (phase s) (view s)
    (store_plugins s) (store_pluginKeys s) (Some v) (extensionStore s).

(** [setExtensionStore(key, value)]. *)
Definition setExtensionStore (key : string) (v : BoundMethod) (s : Store) : Store :=
  mkStore (managerSettings_exclude_plugins s) (phase s) (view s)
    (store_plugins s) (store_pluginKeys s) (store_getPluginState s)
    (<[key := v]> (extensionStore s)).

(** The view of the store after a state update. *)
Definition set_view (v : EditorView) (s : Store) : Store :=
  mkStore (managerSettings_exclude_plugins s) (phase s) (Some v)
    (store_plugins s) (store_pluginKeys s) (store_getPluginState s)
    (extensionStore s).

(** [{ ...extension.createPlugin(), key }]: the spread first, then [key]. *)
Definition spread_with_key (created : PluginSpec) (key : PluginKey) : PluginSpec :=
  mkPluginSpec (Some key) (spec_state created) (spec_rest created).

(** [addPlugins(...plugins)]. *)
Definition addPlugins (ps : list Plugin) (this : PluginsExtension)
  : PluginsExtension :=
  let this := set_plugins (plugins this ++ ps) this in
  set_store (setStoreKey_plugins (plugins this) (store this)) this.

(** [replacePlugin(original, replacement)]. *)
Definition replacePlugin (original replacement : Plugin)
    (this : PluginsExtension) : PluginsExtension :=
  let this :=
    set_plugins
      (map (fun plugin =>
              if same_object plugin original then replacement else original)
           (plugins this))
      this in
  set_store (setStoreKey_plugins (plugins this) (store this)) this.

(** [reconfigureStatePlugins()].  The destructuring
    [const { state, updateState } = this.store.view] takes the function
    value out of the view, so the call [updateState(newState)] that follows
    has no receiver. *)
Definition reconfigureStatePlugins (this : PluginsExtension) : completion :=
  match
    invariant (ManagerPhase.EditorView <=? phase (store this))%nat
      (Some MANAGER_PHASE_ERROR)
      "`reconfigureStatePlugins` should only be called after the view has been added to the manager."
  with
  | Some e => Abrupt e this
  | None =>
      match view (store this) with
      | None => Abrupt TypeError this
      | Some v =>
          let state := view_state v in
          let updateState := updateState None in
          match reconfigure state (plugins this) with
          | None => Abrupt RangeError this
          | Some newState =>
              match updateState newState with
              | None => Abrupt TypeError this
              | Some v' => Normal (set_store (set_view v' (store this)) this)
              end
          end
      end
  end.

(** Modelled from the spec: [getStoreKey] of the manager store, which is
    not part of the sources at hand, for the key [view].  Section 5 has the
    use of the view before it exists stopped by a runtime assertion, and
    section 7 files such failures under the phase-order errors; the text of
    the message is not given, and nothing below depends on it. *)
Definition getStoreKey_view (s : Store) : result EditorView :=
  match view s with
  | Some v => Ok v
  | None =>
      Throw (RemirrorError (Some MANAGER_PHASE_ERROR)
               "The view is not available before the view phase.")
  end.

(** Calling a stored getter: it reads [getStoreKey('view').state] at the
    time of the call. *)
Definition call_getter (g : StateGetter) (this : PluginsExtension)
  : result (option PluginStateValue) :=
  match getStoreKey_view (store this) with
  | Throw e => Throw e
  | Ok v => Ok (getPluginState (getter_key g) (view_state v))
  end.

(** [getStateByName(identifier)]. *)
Definition getStateByName (identifier : Identifier) (this : PluginsExtension)
  : result (option PluginStateValue) :=
  let stateGetter := stateGetters this !! identifier in
  match
    invariant (bool_decide (is_Some stateGetter)) None
      "No plugin exists for the requested extension name."
  with
  | Some e => Throw e
  | None =>
      match stateGetter with
      | Some g => call_getter g this
      | None => Throw TypeError
      end
  end.

(** [updateExtensionStore()]. *)
Definition updateExtensionStore (this : PluginsExtension) : PluginsExtension :=
  let s := store this in
  let s := setStoreKey_plugins [] s in
  let s := setExtensionStore "addPlugins" AddPlugins s in
  let s := setExtensionStore "replacePlugin" ReplacePlugin s in
  let s := setExtensionStore "reconfigureStatePlugins" ReconfigureStatePlugins s in
  set_store s this.

(** [createEachExtensionPlugins(extension)].  The extension is an object the
    method writes to, so it is returned with the class and the host. *)
Definition createEachExtensionPlugins (extension : Extension)
    (this : PluginsExtension) (host : Host)
  : Extension * PluginsExtension * Host :=
  let isNotPluginCreator :=
    negb (bool_decide (is_Some (createPlugin extension)))
    && negb (bool_decide (is_Some (createExternalPlugins extension))) in
  if isNotPluginCreator
     || truthy (managerSettings_exclude_plugins (store this))
     || truthy (options_exclude_plugins extension)
  then (extension, this, host)
  else
    let '(key, host) := new_PluginKey (ext_name extension) host in
    let '(extension, this, host) :=
      match createPlugin extension with
      | Some created =>
          let this :=
            set_pluginKeys (<[ext_name extension := key]> (pluginKeys this)) this in
          let getter := mkStateGetter key in
          let extension := set_pluginKey key extension in
          let extension := set_getPluginState getter extension in
          let this :=
            set_stateGetters
              (<[ByName (ext_name extension) := getter]> (stateGetters this)) this in
          let this :=
            set_stateGetters
              (<[ByConstructor (ext_constructor extension) := getter]>
                 (stateGetters this)) this in
          let pluginSpec := spread_with_key created key in
          let '(p, host) := new_Plugin pluginSpec host in
          (extension, set_extensionPlugins (extensionPlugins this ++ [p]) this, host)
      | None => (extension, this, host)
      end in
    match createExternalPlugins extension with
    | Some external =>
        (extension,
         set_extensionPlugins (extensionPlugins this ++ external) this, host)
    | None => (extension, this, host)
    end.

(** The loop [for (const extension of extensions)] of [onCreate]. *)
Fixpoint forEachExtension (extensions : list Extension)
    (this : PluginsExtension) (host : Host)
  : list Extension * PluginsExtension * Host :=
  match extensions with
  | [] => ([], this, host)
  | extension :: rest =>
      let '(extension, this, host) :=
        createEachExtensionPlugins extension this host in
      let '(rest, this, host) := forEachExtension rest this host in
      (extension :: rest, this, host)
  end.

(** [onCreate(extensions)].  [this.store.addPlugins] is the entry that
    [updateExtensionStore] has just bound to [addPlugins]. *)
Definition onCreate (extensions : list Extension)
    (this : PluginsExtension) (host : Host)
  : list Extension * PluginsExtension * Host :=
  let this := updateExtensionStore this in
  let '(extensions, this, host) := forEachExtension extensions this host in
  let s := store this in
  let s := setStoreKey_pluginKeys (pluginKeys this) s in
  let s := setStoreKey_getPluginState GetStateByName s in
  let s := setExtensionStore "getPluginState" GetStateByName s in
  let this := set_store s this in
  (extensions, addPlugins (extensionPlugins this) this, host).

(** A newly constructed instance on a given store: the field initialisers
    of the class. *)
Definition new_PluginsExtension (s : Store) : PluginsExtension :=
  mkPluginsExtension [] [] ∅ ∅ s.

(** ** The behaviour the text of the specification describes, where it is
    compared with the code *)

(** The exclusion rule in which the option of the extension, when it is
    set, decides alone, and the manager setting is consulted only when the
    extension says nothing. *)
Definition excluded_with_precedence (manager extension : option bool) : bool :=
  match extension with
  | Some b => b
  | None => truthy manager
  end.

(** An extension is passed over when the collector leaves the extension,
    the class and the host as they were. *)
Definition passed_over (e : Extension) (this : PluginsExtension) (host : Host)
  : Prop :=
  createEachExtensionPlugins e this host = (e, this, host).

(** The collector as section 4.3 words it: what one extension contributes,
    the plugin made from [createPlugin] before the external plugins, and the
    contributions of all extensions in the order of the input. *)
Definition contribution (manager_excludes : bool) (e : Extension) (host : Host)
  : list Plugin * Host :=
  match createPlugin e, createExternalPlugins e with
  | None, None => ([], host)
  | created, external =>
      if manager_excludes || truthy (options_exclude_plugins e)
      then ([], host)
      else
        let '(key, host) := new_PluginKey (ext_name e) host in
        let '(own, host) :=
          match created with
          | Some spec =>
              let '(p, host) := new_Plugin (spread_with_key spec key) host in
              ([p], host)
          | None => ([], host)
          end in
        (own ++ default [] external, host)
  end.

Fixpoint contributions (manager_excludes : bool) (es : list Extension)
    (host : Host) : list Plugin :=
  match es with
  | [] => []
  | e :: rest =>
      let '(ps, host) := contribution manager_excludes e host in
      ps ++ contributions manager_excludes rest host
  end.

(** An extension registers a key and a state getter when it declares
    [createPlugin] and is excluded by neither setting. *)
Definition registers (this : PluginsExtension) (e : Extension) : Prop :=
  is_Some (createPlugin e)
  /\ truthy (managerSettings_exclude_plugins (store this)) = false
  /\ truthy (options_exclude_plugins e) = false.

(** The guard of [createEachExtensionPlugins]. *)
Definition guard (e : Extension) (this : PluginsExtension) : bool :=
  negb (bool_decide (is_Some (createPlugin e)))
  && negb (bool_decide (is_Some (createExternalPlugins e)))
  || truthy (managerSettings_exclude_plugins (store this))
  || truthy (options_exclude_plugins e).

#[global] Instance registers_dec this e : Decision (registers this e).
Proof. unfold registers. apply _. Defined.

(** The registry answers alike for the name and the constructor of [e]. *)
Definition agree (getters : gmap Identifier StateGetter) (e : Extension) : Prop :=
  getters !! ByName (ext_name e) = getters !! ByConstructor (ext_constructor e).

(** Two extensions have the same name exactly when they have the same
    constructor. *)
Definition corresponds (e1 e2 : Extension) : Prop :=
  ext_name e1 = ext_name e2 <-> ext_constructor e1 = ext_constructor e2.

(** The claim that the extension's own option decides: a plugin creator is
    passed over exactly when [excluded_with_precedence] says so. *)
Definition extension_setting_decides : Prop :=
  forall e this host,
    is_Some (createPlugin e) ->
    passed_over e this host
    <-> excluded_with_precedence
          (managerSettings_exclude_plugins (store this))
          (options_exclude_plugins e) = true.

(** The extensions of a list that register, in the order of the list. *)
Definition registering (this : PluginsExtension) (es : list Extension)
  : list Extension :=
  filter (registers this) es.

(** Every key of a [pluginKeys] record was made from the name it is stored
    under. *)
Definition keys_named (keys : gmap string PluginKey) : Prop :=
  forall name key, keys !! name = Some key -> key_name key = name.

(** The state a call ends in, whether it returned or threw. *)
Definition completion_state (c : completion) : PluginsExtension :=
  match c with
  | Normal this => this
  | Abrupt _ this => this
  end.

(** The message of the phase invariant and of the failed lookup. *)
Definition phase_message : string :=
  "`reconfigureStatePlugins` should only be called after the view has been added to the manager.".

Definition not_found_message : string :=
  "No plugin exists for the requested extension name.".

(** Sample objects for the evaluations below. *)
Module Sample.
Definition spec_of (n : nat) : PluginSpec := mkPluginSpec None None n.
Definition pa : Plugin := mkPlugin 1 (spec_of 10).
Definition pb : Plugin := mkPlugin 2 (spec_of 20).
Definition pc : Plugin := mkPlugin 3 (spec_of 30).
Definition pd : Plugin := mkPlugin 4 (spec_of 40).

Definition empty_store : Store :=
  mkStore None ManagerPhase.Create None None None None ∅.

Definition doc0 : EditorState := mkEditorState 7 [] [].

Definition viewed_store : Store :=
  mkStore None ManagerPhase.EditorView (Some (mkEditorView doc0))
    None None None ∅.

Definition with_plugins (ps : list Plugin) (s : Store) : PluginsExtension :=
  mkPluginsExtension ps [] ∅ ∅ s.

Definition host0 : Host := mkHost 0 100.

Definition spec1 : PluginSpec :=
  mkPluginSpec (Some (mkPluginKey "own" 99)) (Some 5) 11.

Definition extA : Extension :=
  mkExtension "A" 1 None None None None None None.
Definition extB : Extension :=
  mkExtension "B" 2 (Some spec1) None None None None None.
Definition extC : Extension :=
  mkExtension "C" 3 None (Some [pa; pb]) None None None None.
End Sample.

(** * Properties *)

(** ** Reading the published list *)

Lemma addPlugins_plugins ps this :
  plugins (addPlugins ps this) = plugins this ++ ps.
Proof. reflexivity. Qed.

Lemma addPlugins_published ps this :
  store_plugins (store (addPlugins ps this)) = Some (plugins this ++ ps).
Proof. reflexivity. Qed.

Lemma replacePlugin_plugins o r this :
  plugins (replacePlugin o r this) =
  map (fun p => if same_object p o then r else o) (plugins this).
Proof. reflexivity. Qed.

(** C1: [replacePlugin] does not keep the entries that differ from
    [original]: every entry that is not [original] becomes [original].  On the
    published list [pa; pb], replacing [pa] by [pc] yields [pc; pa] and loses
    [pb]; replacing the absent [pd] by [pc] yields [pd; pd] instead of leaving
    the list as it was.  Only the length survives. *)
Theorem C1_replacePlugin_overwrites_other_entries :
  let this := Sample.with_plugins [Sample.pa; Sample.pb] Sample.empty_store in
  plugins (replacePlugin Sample.pa Sample.pc this) = [Sample.pc; Sample.pa]
  /\ store_plugins (store (replacePlugin Sample.pa Sample.pc this))
     = Some [Sample.pc; Sample.pa]
  /\ plugins (replacePlugin Sample.pd Sample.pc this) = [Sample.pd; Sample.pd]
  /\ store_plugins (store (replacePlugin Sample.pd Sample.pc this))
     = Some [Sample.pd; Sample.pd]
  /\ (forall o r that,
        length (plugins (replacePlugin o r that)) = length (plugins that)).
Proof.
  cbn zeta. split_and!; try reflexivity.
  intros o r that. rewrite replacePlugin_plugins. apply length_map.
Qed.

(** C9: [addPlugins] appends its arguments, in call order, after all the
    entries already published and republishes the list: after
    [addPlugins(p1, p2)] and [addPlugins(p3)] the list is the prior list
    followed by [p1; p2; p3], so no prior entry is removed or moved. *)
Theorem C9_addPlugins_appends_in_call_order (this : PluginsExtension)
    (p1 p2 p3 : Plugin) :
  let this' := addPlugins [p3] (addPlugins [p1; p2] this) in
  plugins this' = plugins this ++ [p1; p2; p3]
  /\ store_plugins (store this') = Some (plugins this ++ [p1; p2; p3])
  /\ (forall ps qs,
        plugins (addPlugins qs (addPlugins ps this)) = plugins this ++ ps ++ qs).
Proof.
  cbn zeta. split_and!.
  - rewrite !addPlugins_plugins, <- app_assoc. reflexivity.
  - rewrite addPlugins_published, addPlugins_plugins, <- app_assoc. reflexivity.
  - intros ps qs. rewrite !addPlugins_plugins, <- app_assoc. reflexivity.
Qed.

(** ** Reconfiguration *)

Lemma reconfigure_plugins s ps s' :
  reconfigure s ps = Some s' ->
  state_plugins s' = ps /\ state_doc s' = state_doc s.
Proof.
  unfold reconfigure. destruct (bool_decide _); [| discriminate].
  by intros [= <-].
Qed.

Lemma reconfigureStatePlugins_early this :
  phase (store this) < ManagerPhase.EditorView ->
  reconfigureStatePlugins this
  = Abrupt (RemirrorError (Some MANAGER_PHASE_ERROR) phase_message) this.
Proof.
  intros Hlt. unfold reconfigureStatePlugins, invariant.
  destruct (Nat.leb_spec ManagerPhase.EditorView (phase (store this)));
    [lia | reflexivity].
Qed.

(** With the view attached in the view phase the call gets as far as
    [state.reconfigure], and past it as far as [updateState]. *)
Lemma reconfigureStatePlugins_viewed this v :
  ManagerPhase.EditorView <= phase (store this) ->
  view (store this) = Some v ->
  reconfigureStatePlugins this
  = Abrupt
      match reconfigure (view_state v) (plugins this) with
      | Some _ => TypeError
      | None => RangeError
      end
      this.
Proof.
  intros Hle Hv. unfold reconfigureStatePlugins, invariant.
  destruct (Nat.leb_spec ManagerPhase.EditorView (phase (store this)));
    [| lia].
  rewrite Hv. by destruct (reconfigure (view_state v) (plugins this)).
Qed.

(** Every call throws, and the class at the throw is the class at the
    call. *)
Lemma reconfigureStatePlugins_throws this :
  exists e, reconfigureStatePlugins this = Abrupt e this.
Proof.
  unfold reconfigureStatePlugins.
  destruct (invariant _ _ _); [by eexists |].
  destruct (view (store this)) as [v |]; [| by eexists].
  destruct (reconfigure (view_state v) (plugins this)); by eexists.
Qed.

(** C3: below the view phase [reconfigureStatePlugins] throws the error with
    code [MANAGER_PHASE_ERROR], whose message says the view must have been
    added to the manager, and the state at the throw is the state at the
    call.  From the view phase on, with the view attached, the new state is
    derived but not installed: [updateState] has been taken out of the view
    and is called without a receiver, which throws a [TypeError], and the
    view keeps the state it had.  With the published list [pa] and a view
    whose state has no plugins, the call throws and the state of the view
    still has no plugins. *)
Theorem C3_reconfigure_stops_at_updateState :
  (forall this,
     phase (store this) < ManagerPhase.EditorView ->
     reconfigureStatePlugins this
     = Abrupt (RemirrorError (Some MANAGER_PHASE_ERROR) phase_message) this)
  /\ (forall this v newState,
        ManagerPhase.EditorView <= phase (store this) ->
        view (store this) = Some v ->
        reconfigure (view_state v) (plugins this) = Some newState ->
        reconfigureStatePlugins this = Abrupt TypeError this)
  /\ let late := Sample.with_plugins [Sample.pa] Sample.viewed_store in
     reconfigure Sample.doc0 [Sample.pa]
     = Some (mkEditorState 7 [Sample.pa] [])
     /\ reconfigureStatePlugins late = Abrupt TypeError late
     /\ state_plugins
          <$> (view_state
                 <$> view (store (completion_state
                                    (reconfigureStatePlugins late))))
        = Some [].
Proof.
  split_and!.
  - apply reconfigureStatePlugins_early.
  - intros this v newState Hle Hv Hnew.
    rewrite (reconfigureStatePlugins_viewed this v Hle Hv). by rewrite Hnew.
  - cbn zeta. by split_and!.
Qed.

Lemma C3_reconfigure_stops_at_updateState_witness :
  let early := Sample.with_plugins [Sample.pa] Sample.empty_store in
  let late := Sample.with_plugins [Sample.pa] Sample.viewed_store in
  reconfigureStatePlugins early
  = Abrupt (RemirrorError (Some MANAGER_PHASE_ERROR) phase_message) early
  /\ reconfigureStatePlugins late = Abrupt TypeError late.
Proof.
  cbn zeta. split.
  - apply (proj1 C3_reconfigure_stops_at_updateState
             (Sample.with_plugins [Sample.pa] Sample.empty_store)).
    cbn. unfold ManagerPhase.Create, ManagerPhase.EditorView. lia.
  - apply (proj1 (proj2 C3_reconfigure_stops_at_updateState)
             (Sample.with_plugins [Sample.pa] Sample.viewed_store)
             (mkEditorView Sample.doc0)
             (mkEditorState 7 [Sample.pa] [])).
    + cbn. lia.
    + reflexivity.
    + reflexivity.
Defined.

(** C7: [reconfigureStatePlugins] never succeeds, so it never makes the
    state of the view reflect the published list: every call throws and
    leaves the class, the view included, as it was.  With the published list
    [pa] and a view whose state has no plugins, the published list is still
    [pa] and the state of the view still has no plugins after the call.  An
    [addPlugins] appends to the published list (the field and the store key)
    and leaves the view, hence the plugin set of the live state, and every
    other field as they were. *)
Theorem C7_reconfigure_never_succeeds :
  (forall this, exists e, reconfigureStatePlugins this = Abrupt e this)
  /\ (let late := Sample.with_plugins [Sample.pa] Sample.viewed_store in
      let after := completion_state (reconfigureStatePlugins late) in
      plugins after = [Sample.pa]
      /\ state_plugins <$> (view_state <$> view (store after)) = Some [])
  /\ (forall this ps,
        view (store (addPlugins ps this)) = view (store this)
        /\ plugins (addPlugins ps this) = plugins this ++ ps
        /\ store_plugins (store (addPlugins ps this))
           = Some (plugins this ++ ps)
        /\ extensionPlugins (addPlugins ps this) = extensionPlugins this
        /\ pluginKeys (addPlugins ps this) = pluginKeys this
        /\ stateGetters (addPlugins ps this) = stateGetters this
        /\ phase (store (addPlugins ps this)) = phase (store this)).
Proof.
  split_and!.
  - apply reconfigureStatePlugins_throws.
  - cbn zeta. by split.
  - intros this ps. by split_and!.
Qed.

(** ** Looking up plugin state *)

Lemma getStateByName_unregistered id this :
  stateGetters this !! id = None ->
  getStateByName id this = Throw (RemirrorError None not_found_message).
Proof.
  intros Hnone. unfold getStateByName. rewrite Hnone.
  rewrite bool_decide_eq_false_2; [reflexivity |].
  by intros [g Hg].
Qed.

Lemma getStateByName_registered id g this :
  stateGetters this !! id = Some g ->
  getStateByName id this = call_getter g this.
Proof.
  intros Hsome. unfold getStateByName. rewrite Hsome.
  rewrite bool_decide_eq_true_2; [reflexivity | by eexists].
Qed.

(** ** One step of the collector *)

Lemma bool_decide_is_Some {A} (o : option A) :
  bool_decide (is_Some o) = match o with Some _ => true | None => false end.
Proof.
  destruct o; [by rewrite bool_decide_eq_true_2 |].
  rewrite bool_decide_eq_false_2; [done | by intros [? ?]].
Qed.

Lemma guard_true_skip e this host :
  guard e this = true ->
  createEachExtensionPlugins e this host = (e, this, host).
Proof.
  unfold guard, createEachExtensionPlugins. by intros ->.
Qed.

Lemma guard_false_host e this host :
  guard e this = false ->
  next_key_serial (createEachExtensionPlugins e this host).2
  = S (next_key_serial host).
Proof.
  unfold guard, createEachExtensionPlugins. intros ->.
  destruct (createPlugin e) eqn:Hc, (createExternalPlugins e) eqn:Hx; cbn;
    rewrite ?Hx; reflexivity.
Qed.

Lemma registers_guard e this : registers this e -> guard e this = false.
Proof.
  intros ([spec Hspec] & Hm & Ho). unfold guard.
  rewrite Hm, Ho, !bool_decide_is_Some, Hspec. reflexivity.
Qed.

Lemma not_registers_cases e this :
  ~ registers this e -> guard e this = true \/ createPlugin e = None.
Proof.
  intros Hn. unfold guard. rewrite !bool_decide_is_Some.
  destruct (createPlugin e) as [spec |] eqn:Hspec; [| by right].
  left.
  destruct (truthy (managerSettings_exclude_plugins (store this))) eqn:Hm;
    [by rewrite orb_true_r |].
  destruct (truthy (options_exclude_plugins e)) eqn:Ho;
    [by rewrite orb_true_r |].
  exfalso. apply Hn. unfold registers. rewrite Hspec. eauto.
Qed.

(** What a step leaves alone, and what it appends. *)
Lemma step_frame e this host :
  let r := createEachExtensionPlugins e this host in
  store r.1.2 = store this
  /\ plugins r.1.2 = plugins this
  /\ ext_name r.1.1 = ext_name e
  /\ ext_constructor r.1.1 = ext_constructor e
  /\ createPlugin r.1.1 = createPlugin e
  /\ createExternalPlugins r.1.1 = createExternalPlugins e
  /\ options_exclude_plugins r.1.1 = options_exclude_plugins e
  /\ plugin r.1.1 = plugin e.
Proof.
  unfold createEachExtensionPlugins.
  destruct (_ || _ || _); [done |].
  destruct (createPlugin e) eqn:Hc, (createExternalPlugins e) eqn:Hx; cbn;
    rewrite ?Hc, ?Hx; done.
Qed.

Lemma step_contribution e this host :
  let r := createEachExtensionPlugins e this host in
  let c := contribution (truthy (managerSettings_exclude_plugins (store this)))
             e host in
  extensionPlugins r.1.2 = extensionPlugins this ++ c.1 /\ r.2 = c.2.
Proof.
  unfold createEachExtensionPlugins, contribution.
  rewrite !bool_decide_is_Some.
  destruct (createPlugin e) as [spec |] eqn:Hc,
    (createExternalPlugins e) as [ext |] eqn:Hx,
    (truthy (managerSettings_exclude_plugins (store this))),
    (truthy (options_exclude_plugins e)); cbn;
    rewrite ?Hx; cbn; rewrite ?app_nil_r, <- ?app_assoc; done.
Qed.

(** The registries after a step that registers. *)
Lemma step_registers e this host :
  registers this e ->
  let r := createEachExtensionPlugins e this host in
  let key := mkPluginKey (ext_name e) (next_key_serial host) in
  pluginKeys r.1.2 = <[ext_name e := key]> (pluginKeys this)
  /\ stateGetters r.1.2
     = <[ByConstructor (ext_constructor e) := mkStateGetter key]>
         (<[ByName (ext_name e) := mkStateGetter key]> (stateGetters this))
  /\ pluginKey r.1.1 = Some key
  /\ getPluginState_field r.1.1 = Some (mkStateGetter key).
Proof.
  intros Hreg. pose proof (registers_guard _ _ Hreg) as Hg.
  destruct Hreg as ([spec Hspec] & _ & _).
  unfold guard in Hg. unfold createEachExtensionPlugins. rewrite Hg, Hspec.
  destruct (createExternalPlugins e) eqn:Hx; cbn; rewrite ?Hx; done.
Qed.

(** The registries after a step that does not. *)
Lemma step_not_registers e this host :
  ~ registers this e ->
  let r := createEachExtensionPlugins e this host in
  pluginKeys r.1.2 = pluginKeys this
  /\ stateGetters r.1.2 = stateGetters this
  /\ pluginKey r.1.1 = pluginKey e
  /\ getPluginState_field r.1.1 = getPluginState_field e.
Proof.
  intros Hn. destruct (not_registers_cases _ _ Hn) as [Hg | Hnone].
  - cbn zeta. by rewrite (guard_true_skip _ _ _ Hg).
  - unfold createEachExtensionPlugins. rewrite Hnone.
    destruct (_ || _ || _); [done |].
    destruct (createExternalPlugins e) eqn:Hx; cbn; rewrite ?Hx; done.
Qed.

(** ** The loop over the extensions *)

Lemma forEachExtension_cons e rest this host :
  let r1 := createEachExtensionPlugins e this host in
  let r2 := forEachExtension rest r1.1.2 r1.2 in
  forEachExtension (e :: rest) this host = (r1.1.1 :: r2.1.1, r2.1.2, r2.2).
Proof.
  cbn. destruct (createEachExtensionPlugins e this host) as [[e' this'] host'].
  cbn. by destruct (forEachExtension rest this' host') as [[rest' this''] host''].
Qed.

Lemma registers_same_settings this1 this2 e :
  managerSettings_exclude_plugins (store this1)
  = managerSettings_exclude_plugins (store this2) ->
  registers this1 e -> registers this2 e.
Proof. unfold registers. by intros ->. Qed.

Lemma registers_same_store this1 this2 e :
  store this1 = store this2 -> registers this1 e -> registers this2 e.
Proof. intros Hs. apply registers_same_settings. by rewrite Hs. Qed.

Lemma loop_frame es : forall this host,
  let r := forEachExtension es this host in
  store r.1.2 = store this /\ plugins r.1.2 = plugins this.
Proof.
  induction es as [| e rest IH]; intros this host; [done |].
  cbn zeta. rewrite forEachExtension_cons. cbn.
  destruct (step_frame e this host) as (Hs & Hp & _).
  destruct (IH (createEachExtensionPlugins e this host).1.2
               (createEachExtensionPlugins e this host).2) as [Hs' Hp'].
  split; congruence.
Qed.

Lemma loop_contributions es : forall this host,
  extensionPlugins (forEachExtension es this host).1.2
  = extensionPlugins this
    ++ contributions (truthy (managerSettings_exclude_plugins (store this)))
         es host.
Proof.
  induction es as [| e rest IH]; intros this host.
  - cbn. by rewrite app_nil_r.
  - rewrite forEachExtension_cons. cbn [fst snd contributions].
    destruct (step_contribution e this host) as [Hps Hhost].
    destruct (step_frame e this host) as (Hs & _).
    rewrite IH, Hps, Hs, Hhost.
    destruct (contribution _ e host) as [ps host']. cbn.
    by rewrite app_assoc.
Qed.

(** Order of the input: the contributions of a concatenation are those of
    its first part followed by those of its second part. *)
Lemma contributions_app m es1 : forall es2 host,
  exists host',
    contributions m (es1 ++ es2) host
    = contributions m es1 host ++ contributions m es2 host'.
Proof.
  induction es1 as [| e rest IH]; intros es2 host; [by exists host |].
  cbn. destruct (contribution m e host) as [ps host1].
  destruct (IH es2 host1) as [host' ->]. exists host'. by rewrite app_assoc.
Qed.

(** An identifier nobody registers stays unregistered. *)
Lemma loop_getter_none id es : forall this host,
  stateGetters this !! id = None ->
  (forall e, e ∈ es -> registers this e ->
     id <> ByName (ext_name e) /\ id <> ByConstructor (ext_constructor e)) ->
  stateGetters (forEachExtension es this host).1.2 !! id = None.
Proof.
  induction es as [| e rest IH]; intros this host Hnone Hfresh; [done |].
  rewrite forEachExtension_cons. cbn [fst snd].
  destruct (step_frame e this host) as (Hs & _).
  apply IH.
  - destruct (decide (registers this e)) as [Hreg | Hn].
    + destruct (step_registers e this host Hreg) as (_ & -> & _).
      destruct (Hfresh e (list_elem_of_here _ _) Hreg) as [Hn Hc].
      by rewrite !lookup_insert_ne.
    + by destruct (step_not_registers e this host Hn) as (_ & -> & _).
  - intros e' Hin Hreg. apply Hfresh; [by apply list_elem_of_further |].
    by apply (registers_same_store _ _ _ Hs).
Qed.

Lemma loop_key_none name es : forall this host,
  pluginKeys this !! name = None ->
  (forall e, e ∈ es -> registers this e -> name <> ext_name e) ->
  pluginKeys (forEachExtension es this host).1.2 !! name = None.
Proof.
  induction es as [| e rest IH]; intros this host Hnone Hfresh; [done |].
  rewrite forEachExtension_cons. cbn [fst snd].
  destruct (step_frame e this host) as (Hs & _).
  apply IH.
  - destruct (decide (registers this e)) as [Hreg | Hn].
    + destruct (step_registers e this host Hreg) as (-> & _).
      pose proof (Hfresh e (list_elem_of_here _ _) Hreg).
      by rewrite lookup_insert_ne.
    + by destruct (step_not_registers e this host Hn) as (-> & _).
  - intros e' Hin Hreg. apply Hfresh; [by apply list_elem_of_further |].
    by apply (registers_same_store _ _ _ Hs).
Qed.

(** The extension at a position of the output is the extension at that
    position of the input after its own step, run on the store of the
    start. *)
Lemma loop_extension_at es : forall this host i e,
  es !! i = Some e ->
  exists this_i host_i,
    store this_i = store this
    /\ (forEachExtension es this host).1.1 !! i
       = Some (createEachExtensionPlugins e this_i host_i).1.1
    /\ forall p, p ∈ extensionPlugins
                       (createEachExtensionPlugins e this_i host_i).1.2 ->
                 p ∈ extensionPlugins (forEachExtension es this host).1.2.
Proof.
  induction es as [| e0 rest IH]; intros this host i e Hi; [done |].
  rewrite forEachExtension_cons. cbn [fst snd].
  destruct (step_frame e0 this host) as (Hs & _).
  destruct i as [| i]; cbn in Hi.
  - injection Hi as ->. exists this, host. split_and!; [done | done |].
    intros p Hp. rewrite loop_contributions. apply elem_of_app. by left.
  - destruct (IH (createEachExtensionPlugins e0 this host).1.2
                 (createEachExtensionPlugins e0 this host).2 i e Hi)
      as (this_i & host_i & Hsi & Hat & Hin).
    exists this_i, host_i. split_and!; [congruence | done | done].
Qed.

(** [onCreate] in terms of the loop. *)
Lemma onCreate_unfold es this host :
  let r := forEachExtension es (updateExtensionStore this) host in
  let s := setExtensionStore "getPluginState" GetStateByName
             (setStoreKey_getPluginState GetStateByName
                (setStoreKey_pluginKeys (pluginKeys r.1.2) (store r.1.2))) in
  onCreate es this host
  = (r.1.1, addPlugins (extensionPlugins r.1.2) (set_store s r.1.2), r.2).
Proof.
  unfold onCreate.
  by destruct (forEachExtension es (updateExtensionStore this) host)
    as [[es' this'] host'].
Qed.

(** ** The two axes of the getter registry *)

Lemma step_agree e0 e this host :
  (registers this e -> corresponds e0 e) ->
  agree (stateGetters this) e0
  /\ is_Some (stateGetters this !! ByName (ext_name e0)) ->
  agree (stateGetters (createEachExtensionPlugins e this host).1.2) e0
  /\ is_Some (stateGetters (createEachExtensionPlugins e this host).1.2
                !! ByName (ext_name e0)).
Proof.
  intros Hcorr [Hagree Hsome]. unfold agree in *.
  destruct (decide (registers this e)) as [Hreg | Hn].
  - destruct (step_registers e this host Hreg) as (_ & -> & _).
    specialize (Hcorr Hreg).
    destruct (decide (ext_name e0 = ext_name e)) as [Hname | Hname].
    + pose proof (proj1 Hcorr Hname) as Hctor. rewrite Hname, Hctor.
      rewrite lookup_insert_ne by done.
      rewrite !lookup_insert_eq. eauto.
    + assert (ext_constructor e0 <> ext_constructor e) as Hctor
        by (intros Hc; by apply Hname, Hcorr).
      rewrite !(lookup_insert_ne _ (ByConstructor (ext_constructor e)))
        by congruence.
      rewrite !(lookup_insert_ne _ (ByName (ext_name e))) by congruence.
      done.
  - by destruct (step_not_registers e this host Hn) as (_ & -> & _).
Qed.

Lemma step_registers_agree e this host :
  registers this e ->
  agree (stateGetters (createEachExtensionPlugins e this host).1.2) e
  /\ is_Some (stateGetters (createEachExtensionPlugins e this host).1.2
                !! ByName (ext_name e)).
Proof.
  intros Hreg. unfold agree.
  destruct (step_registers e this host Hreg) as (_ & -> & _).
  rewrite lookup_insert_ne by done. rewrite !lookup_insert_eq. eauto.
Qed.

Lemma loop_agree e0 es : forall this host,
  (forall e, e ∈ es -> registers this e -> corresponds e0 e) ->
  agree (stateGetters this) e0
  /\ is_Some (stateGetters this !! ByName (ext_name e0)) ->
  agree (stateGetters (forEachExtension es this host).1.2) e0
  /\ is_Some (stateGetters (forEachExtension es this host).1.2
                !! ByName (ext_name e0)).
Proof.
  induction es as [| e rest IH]; intros this host Hcorr Hinv; [done |].
  rewrite forEachExtension_cons. cbn [fst snd].
  destruct (step_frame e this host) as (Hs & _).
  apply IH.
  - intros e' Hin Hreg. apply Hcorr; [by apply list_elem_of_further |].
    by apply (registers_same_store _ _ _ Hs).
  - apply step_agree; [apply Hcorr, list_elem_of_here | done].
Qed.

Lemma loop_registered es : forall this host e,
  e ∈ es -> registers this e ->
  (forall e', e' ∈ es -> registers this e' -> corresponds e e') ->
  agree (stateGetters (forEachExtension es this host).1.2) e
  /\ is_Some (stateGetters (forEachExtension es this host).1.2
                !! ByName (ext_name e)).
Proof.
  induction es as [| e0 rest IH]; intros this host e Hin Hreg Hcorr;
    [by apply elem_of_nil in Hin |].
  rewrite forEachExtension_cons. cbn [fst snd].
  destruct (step_frame e0 this host) as (Hs & _).
  assert (Hrest : forall e', e' ∈ rest ->
            registers (createEachExtensionPlugins e0 this host).1.2 e' ->
            corresponds e e').
  { intros e' Hin' Hreg'. apply Hcorr; [by apply list_elem_of_further |].
    by apply (registers_same_store _ _ _ Hs). }
  apply elem_of_cons in Hin as [-> | Hin].
  - apply loop_agree; [done | by apply step_registers_agree].
  - apply IH; [done | by apply (registers_same_store this) | done].
Qed.

(** C8: when [E] declares [createPlugin] and is not excluded, and every
    registering extension of the list has the name of [E] exactly when it has
    the constructor of [E] (name and constructor identify the same
    extension), then after [onCreate] the registry holds one getter under
    both [E.name] and [E.constructor].  At any later state of the class with that
    registry, [getPluginState] gives the same outcome for the two
    identifiers, and once the view is attached that outcome is the value the
    getter's key has in the view's current state. *)
Theorem C8_name_and_constructor_resolve_alike (es : list Extension)
    (s : Store) (host : Host) (E : Extension) :
  E ∈ es ->
  registers (new_PluginsExtension s) E ->
  (forall e, e ∈ es -> registers (new_PluginsExtension s) e -> corresponds E e) ->
  let created := (onCreate es (new_PluginsExtension s) host).1.2 in
  exists g,
    stateGetters created !! ByName (ext_name E) = Some g
    /\ stateGetters created !! ByConstructor (ext_constructor E) = Some g
    /\ forall later,
         stateGetters later = stateGetters created ->
         getStateByName (ByName (ext_name E)) later
         = getStateByName (ByConstructor (ext_constructor E)) later
         /\ forall v,
              view (store later) = Some v ->
              getStateByName (ByName (ext_name E)) later
              = Ok (getPluginState (getter_key g) (view_state v)).
Proof.
  intros Hin Hreg Hcorr. cbn zeta. rewrite onCreate_unfold. cbn [fst snd].
  change (stateGetters (addPlugins ?ps (set_store ?st ?t)))
    with (stateGetters t).
  destruct (loop_registered es (updateExtensionStore (new_PluginsExtension s))
              host E Hin) as [Hagree [g Hg]]; [done | |].
  { intros e He Hreg'. by apply Hcorr. }
  unfold agree in Hagree. exists g. split_and!; [done | congruence |].
  intros later Hlater.
  rewrite (getStateByName_registered _ g) by congruence.
  rewrite (getStateByName_registered _ g) by congruence.
  split; [done |]. intros v Hv. unfold call_getter, getStoreKey_view.
  by rewrite Hv.
Qed.

Lemma C8_name_and_constructor_resolve_alike_witness :
  let created :=
    (onCreate [Sample.extA; Sample.extB; Sample.extC]
       (new_PluginsExtension Sample.empty_store) Sample.host0).1.2 in
  exists g,
    stateGetters created !! ByName "B" = Some g
    /\ stateGetters created !! ByConstructor 2%positive = Some g.
Proof.
  cbn zeta.
  destruct (C8_name_and_constructor_resolve_alike
              [Sample.extA; Sample.extB; Sample.extC]
              Sample.empty_store Sample.host0 Sample.extB)
    as (g & Hname & Hctor & _).
  - apply list_elem_of_further, list_elem_of_here.
  - unfold registers. cbn. split_and!; [by eexists | done | done].
  - intros e He _. unfold corresponds.
    apply list_elem_of_In in He. cbn in He.
    destruct He as [<- | [<- | [<- | []]]];
      cbn; split; intros H; (reflexivity || discriminate H).
  - exists g. split; [exact Hname | exact Hctor].
Defined.

(** ** Exclusion *)

(** With plugins excluded by the manager and [exclude.plugins] set to
    [false] on the extension, the extension's own option would have its
    plugin made; the collector passes the extension over. *)
Lemma C2_manager_exclusion_overrides_extension_false :
  let s := mkStore (Some true) ManagerPhase.Create None None None None ∅ in
  let e := mkExtension "B" 2 (Some Sample.spec1) None (Some false)
             None None None in
  excluded_with_precedence (Some true) (Some false) = false
  /\ passed_over e (new_PluginsExtension s) Sample.host0
  /\ ~ extension_setting_decides.
Proof.
  cbn zeta. split_and!; [reflexivity | reflexivity |].
  intros Hclaim.
  pose proof (Hclaim
    (mkExtension "B" 2 (Some Sample.spec1) None (Some false) None None None)
    (new_PluginsExtension
       (mkStore (Some true) ManagerPhase.Create None None None None ∅))
    Sample.host0) as [Hpass _]; [by eexists |].
  cbn in Hpass. discriminate Hpass. reflexivity.
Qed.

(** C2 (amended): an extension is passed over, with nothing created,
    registered or allocated, exactly when it declares neither creator
    method, or the manager setting excludes plugins, or its own option
    excludes plugins.  The two settings are alternatives: either one that is
    [true] excludes, and an option that is [false] or unset on the extension
    does not undo the exclusion by the manager. *)
Theorem C2_excluded_by_either_setting (e : Extension)
    (this : PluginsExtension) (host : Host) :
  passed_over e this host
  <-> (createPlugin e = None /\ createExternalPlugins e = None)
      \/ managerSettings_exclude_plugins (store this) = Some true
      \/ options_exclude_plugins e = Some true.
Proof.
  assert (Hguard : guard e this = true
            <-> (createPlugin e = None /\ createExternalPlugins e = None)
                \/ managerSettings_exclude_plugins (store this) = Some true
                \/ options_exclude_plugins e = Some true).
  { unfold guard. rewrite !bool_decide_is_Some.
    destruct (createPlugin e), (createExternalPlugins e),
      (managerSettings_exclude_plugins (store this)) as [[|] |],
      (options_exclude_plugins e) as [[|] |]; cbn; split;
      try (intros; discriminate); try tauto;
      intros [[? ?] | [? | ?]]; congruence. }
  rewrite <- Hguard. unfold passed_over. split.
  - intros Hpass. destruct (guard e this) eqn:Hg; [done |].
    pose proof (guard_false_host e this host Hg) as Hhost.
    rewrite Hpass in Hhost. cbn in Hhost. lia.
  - apply guard_true_skip.
Qed.

(** ** Failed lookups *)

(** C4: [getPluginState] on an identifier, name or constructor, that has no
    getter in the registry throws the error with the message
    [No plugin exists for the requested extension name.]; it returns no
    value, so neither [undefined] nor [null].  After [onCreate] on a new
    instance this is the case of every identifier that is not the name or
    the constructor of an extension that registered. *)
Theorem C4_getPluginState_unregistered_throws (id : Identifier) :
  (forall this,
     stateGetters this !! id = None ->
     getStateByName id this = Throw (RemirrorError None not_found_message)
     /\ forall value, getStateByName id this <> Ok value)
  /\ (forall es s host,
        (forall e, e ∈ es -> registers (new_PluginsExtension s) e ->
           id <> ByName (ext_name e)
           /\ id <> ByConstructor (ext_constructor e)) ->
        getStateByName id (onCreate es (new_PluginsExtension s) host).1.2
        = Throw (RemirrorError None not_found_message)).
Proof.
  split.
  - intros this Hnone. rewrite (getStateByName_unregistered _ _ Hnone).
    split; [done | by intros value].
  - intros es s host Hfresh. apply getStateByName_unregistered.
    rewrite onCreate_unfold. cbn [fst snd].
    change (stateGetters (addPlugins ?ps (set_store ?st ?t)))
      with (stateGetters t).
    by apply loop_getter_none.
Qed.

Lemma C4_getPluginState_unregistered_throws_witness :
  getStateByName (ByName "missing")
    (new_PluginsExtension Sample.viewed_store)
  = Throw (RemirrorError None not_found_message)
  /\ getStateByName (ByName "C")
       (onCreate [Sample.extA; Sample.extB; Sample.extC]
          (new_PluginsExtension Sample.empty_store) Sample.host0).1.2
     = Throw (RemirrorError None not_found_message).
Proof.
  split.
  - apply (proj1 (C4_getPluginState_unregistered_throws (ByName "missing"))).
    reflexivity.
  - apply (proj2 (C4_getPluginState_unregistered_throws (ByName "C"))).
    intros e Hin Hreg. apply list_elem_of_In in Hin. cbn in Hin.
    destruct Hin as [<- | [<- | [<- | []]]]; cbn; try (split; discriminate).
    destruct Hreg as [[spec Hspec] _]. discriminate Hspec.
Defined.

(** ** The collected list *)

(** C5: the extension-plugin list after the loop is the list before it
    followed by the contributions of the extensions in input order, each
    contribution being the plugin made from [createPlugin], if any, and then
    the external plugins; the contributions of a list in two parts are those
    of the first part followed by those of the second; [onCreate] on a new
    instance publishes exactly that list.  For [A] without creator methods, [B] whose [createPlugin]
    returns [spec1] and [C] whose [createExternalPlugins] returns [x; y],
    with nothing excluded, the list is the plugin built from [spec1] with
    the key allocated for [B] (replacing a key [spec1] may carry), then [x],
    then [y], and [pluginKeys] is the single entry for [B]. *)
Theorem C5_collector_preserves_order :
  (forall es this host,
     extensionPlugins (forEachExtension es this host).1.2
     = extensionPlugins this
       ++ contributions (truthy (managerSettings_exclude_plugins (store this)))
            es host)
  /\ (forall m es1 es2 host,
        exists host',
          contributions m (es1 ++ es2) host
          = contributions m es1 host ++ contributions m es2 host')
  /\ (forall es s host,
        let created := (onCreate es (new_PluginsExtension s) host).1.2 in
        let collected :=
          contributions (truthy (managerSettings_exclude_plugins s)) es host in
        extensionPlugins created = collected
        /\ plugins created = collected
        /\ store_plugins (store created) = Some collected)
  /\ (forall (spec1 : PluginSpec) (x y : Plugin) (nA nB nC : string)
        (cA cB cC : positive) (s : Store) (host : Host),
        truthy (managerSettings_exclude_plugins s) = false ->
        let A := mkExtension nA cA None None None None None None in
        let B := mkExtension nB cB (Some spec1) None None None None None in
        let C := mkExtension nC cC None (Some [x; y]) None None None None in
        let keyB := mkPluginKey nB (next_key_serial host) in
        let created := (onCreate [A; B; C] (new_PluginsExtension s) host).1.2 in
        extensionPlugins created
        = [mkPlugin (next_oid host) (spread_with_key spec1 keyB); x; y]
        /\ spec_key (spread_with_key spec1 keyB) = Some keyB
        /\ pluginKeys created = {[ nB := keyB ]}
        /\ store_pluginKeys (store created) = Some {[ nB := keyB ]}).
Proof.
  split_and!.
  - intros es this host. apply loop_contributions.
  - intros m es1 es2 host. apply contributions_app.
  - intros es s host. cbn zeta. rewrite onCreate_unfold. cbn [fst snd].
    pose proof (loop_contributions es
                  (updateExtensionStore (new_PluginsExtension s)) host) as Hc.
    pose proof (loop_frame es
                  (updateExtensionStore (new_PluginsExtension s)) host)
      as [_ Hp].
    cbn in Hc, Hp. unfold addPlugins. cbn. rewrite Hp, Hc. done.
  - intros spec1 x y nA nB nC cA cB cC s host Hm. cbn zeta.
    unfold onCreate, forEachExtension, createEachExtensionPlugins.
    rewrite !bool_decide_is_Some. cbn. repeat (rewrite Hm; cbn).
    split_and!; reflexivity.
Qed.

Lemma C5_collector_preserves_order_witness :
  let created :=
    (onCreate [Sample.extA; Sample.extB; Sample.extC]
       (new_PluginsExtension Sample.empty_store) Sample.host0).1.2 in
  extensionPlugins created
  = [mkPlugin 100 (mkPluginSpec (Some (mkPluginKey "B" 0)) (Some 5) 11);
     Sample.pa; Sample.pb]
  /\ pluginKeys created = {[ "B" := mkPluginKey "B" 0 ]}.
Proof.
  cbn zeta.
  destruct (proj2 (proj2 (proj2 C5_collector_preserves_order))
              Sample.spec1 Sample.pa Sample.pb "A" "B" "C"
              1%positive 2%positive 3%positive
              Sample.empty_store Sample.host0)
    as (Hlist & _ & Hkeys & _).
  - reflexivity.
  - split; [exact Hlist | exact Hkeys].
Defined.

(** ** The fields attached to an extension *)

Lemma loop_plugin_field es : forall this host,
  plugin <$> (forEachExtension es this host).1.1 = plugin <$> es.
Proof.
  induction es as [| e rest IH]; intros this host; [done |].
  rewrite forEachExtension_cons. cbn [fst snd]. rewrite !fmap_cons, IH.
  by destruct (step_frame e this host) as (_ & _ & _ & _ & _ & _ & _ & ->).
Qed.

(** C6: the collector attaches [pluginKey] and [getPluginState] to an
    extension that declares [createPlugin], and never writes its [plugin]
    member: after [onCreate] the member is what it was before on every
    extension.  For [A], [B], [C] of the scenario, [B] comes out with its
    key and its getter while its plugin, already made and published, is not
    on it. *)
Theorem C6_plugin_member_is_never_attached :
  (forall es this host,
     plugin <$> (onCreate es this host).1.1 = plugin <$> es)
  /\ let r := onCreate [Sample.extA; Sample.extB; Sample.extC]
                (new_PluginsExtension Sample.empty_store) Sample.host0 in
     let keyB := mkPluginKey "B" 0 in
     let made := mkPlugin 100 (spread_with_key Sample.spec1 keyB) in
     exists B',
       r.1.1 !! 1 = Some B'
       /\ pluginKey B' = Some keyB
       /\ getPluginState_field B' = Some (mkStateGetter keyB)
       /\ plugins r.1.2 = [made; Sample.pa; Sample.pb]
       /\ plugin B' = None.
Proof.
  split.
  - intros es this host. rewrite onCreate_unfold. cbn [fst snd].
    apply loop_plugin_field.
  - cbn zeta. eexists. split; [reflexivity |]. by split_and!.
Qed.

(** ** Extensions with external plugins only *)

(** C10: an extension that declares [createExternalPlugins] and no
    [createPlugin], and is not excluded, has its external plugins appended
    to the extension-plugin list while [pluginKeys], the getter registry and
    its own [pluginKey] and [getPluginState] members stay as they were.
    After [onCreate] on a new instance, provided no registering extension
    of the list bears its name or its constructor, [pluginKeys] has no entry
    for its name, the extension in the output list has the two members it
    came with, and [getPluginState] throws the not-found error for its name
    and for its constructor. *)
Theorem C10_external_only_registers_nothing (E : Extension)
    (external : list Plugin) :
  createPlugin E = None ->
  createExternalPlugins E = Some external ->
  options_exclude_plugins E <> Some true ->
  (forall this host,
     managerSettings_exclude_plugins (store this) <> Some true ->
     let r := createEachExtensionPlugins E this host in
     extensionPlugins r.1.2 = extensionPlugins this ++ external
     /\ pluginKeys r.1.2 = pluginKeys this
     /\ stateGetters r.1.2 = stateGetters this
     /\ pluginKey r.1.1 = pluginKey E
     /\ getPluginState_field r.1.1 = getPluginState_field E)
  /\ (forall es s host i,
        es !! i = Some E ->
        managerSettings_exclude_plugins s <> Some true ->
        (forall e, e ∈ es -> registers (new_PluginsExtension s) e ->
           ext_name e <> ext_name E
           /\ ext_constructor e <> ext_constructor E) ->
        let r := onCreate es (new_PluginsExtension s) host in
        (forall p, p ∈ external -> p ∈ plugins r.1.2)
        /\ pluginKeys r.1.2 !! ext_name E = None
        /\ (exists E', r.1.1 !! i = Some E'
                       /\ pluginKey E' = pluginKey E
                       /\ getPluginState_field E' = getPluginState_field E)
        /\ getStateByName (ByName (ext_name E)) r.1.2
           = Throw (RemirrorError None not_found_message)
        /\ getStateByName (ByConstructor (ext_constructor E)) r.1.2
           = Throw (RemirrorError None not_found_message)).
Proof.
  intros Hnone Hext Hopt.
  assert (Hnot : forall this, ~ registers this E).
  { intros this [[spec Hspec] _]. congruence. }
  assert (Hto : truthy (options_exclude_plugins E) = false).
  { by destruct (options_exclude_plugins E) as [[|] |]. }
  split.
  - intros this host Hm. cbn zeta.
    destruct (step_not_registers E this host (Hnot this)) as (-> & -> & -> & ->).
    split_and!; try reflexivity.
    destruct (step_contribution E this host) as [-> _].
    unfold contribution. rewrite Hnone, Hext, Hto.
    by destruct (managerSettings_exclude_plugins (store this)) as [[|] |].
  - intros es s host i Hi Hm Hfresh. cbn zeta.
    rewrite onCreate_unfold. cbn [fst snd].
    set (start := updateExtensionStore (new_PluginsExtension s)).
    destruct (loop_extension_at es start host i E Hi)
      as (this_i & host_i & Hsi & Hat & Hin).
    assert (Hfresh' : forall e, e ∈ es -> registers start e ->
              ext_name e <> ext_name E
              /\ ext_constructor e <> ext_constructor E).
    { intros e He Hreg. apply Hfresh; [done |].
      by apply (registers_same_settings start). }
    split_and!.
    + intros p Hp. rewrite addPlugins_plugins. apply elem_of_app. right.
      apply Hin. destruct (step_contribution E this_i host_i) as [-> _].
      unfold contribution. rewrite Hnone, Hext, Hto, Hsi. cbn.
      destruct (managerSettings_exclude_plugins s) as [[|] |]; [done | |];
        cbn; apply elem_of_app; by right.
    + apply loop_key_none; [done |].
      intros e He Hreg Heq. by destruct (Hfresh' e He Hreg).
    + eexists. split; [exact Hat |].
      by destruct (step_not_registers E this_i host_i (Hnot this_i))
        as (_ & _ & -> & ->).
    + apply getStateByName_unregistered.
      apply loop_getter_none; [done |].
      intros e He Hreg. destruct (Hfresh' e He Hreg). split; congruence.
    + apply getStateByName_unregistered.
      apply loop_getter_none; [done |].
      intros e He Hreg. destruct (Hfresh' e He Hreg). split; congruence.
Qed.

Lemma C10_external_only_registers_nothing_witness :
  let r := onCreate [Sample.extA; Sample.extB; Sample.extC]
             (new_PluginsExtension Sample.empty_store) Sample.host0 in
  extensionPlugins
    (createEachExtensionPlugins Sample.extC
       (new_PluginsExtension Sample.empty_store) Sample.host0).1.2
  = [Sample.pa; Sample.pb]
  /\ pluginKeys r.1.2 !! "C" = None
  /\ getStateByName (ByName "C") r.1.2
     = Throw (RemirrorError None not_found_message)
  /\ getStateByName (ByConstructor 3%positive) r.1.2
     = Throw (RemirrorError None not_found_message).
Proof.
  cbn zeta.
  destruct (C10_external_only_registers_nothing Sample.extC
              [Sample.pa; Sample.pb]) as [Hstep Hall];
    [reflexivity | reflexivity | discriminate |].
  destruct (Hstep (new_PluginsExtension Sample.empty_store) Sample.host0)
    as (Hlist & _); [discriminate |].
  destruct (Hall [Sample.extA; Sample.extB; Sample.extC]
              Sample.empty_store Sample.host0 2)
    as (_ & Hkeys & _ & Hname & Hctor).
  - reflexivity.
  - discriminate.
  - intros e Hin Hreg. apply list_elem_of_In in Hin. cbn in Hin.
    destruct Hin as [<- | [<- | [<- | []]]]; cbn; try (split; discriminate);
      destruct Hreg as [[spec Hspec] _]; discriminate Hspec.
  - split_and!; [exact Hlist | exact Hkeys | exact Hname | exact Hctor].
Defined.

(** * Further properties of the class *)

(** ** More on the loop *)

Lemma forEachExtension_app es1 : forall es2 this host,
  let r1 := forEachExtension es1 this host in
  let r2 := forEachExtension es2 r1.1.2 r1.2 in
  forEachExtension (es1 ++ es2) this host = (r1.1.1 ++ r2.1.1, r2.1.2, r2.2).
Proof.
  induction es1 as [| e rest IH]; intros es2 this host.
  - cbn. by destruct (forEachExtension es2 this host) as [[es' this'] host'].
  - cbn zeta. rewrite <- app_comm_cons, !forEachExtension_cons.
    cbn [fst snd]. by rewrite IH.
Qed.

Lemma loop_length es : forall this host,
  length (forEachExtension es this host).1.1 = length es.
Proof.
  induction es as [| e rest IH]; intros this host; [done |].
  rewrite forEachExtension_cons. cbn. by rewrite IH.
Qed.

Lemma loop_settings es this host :
  managerSettings_exclude_plugins (store (forEachExtension es this host).1.2)
  = managerSettings_exclude_plugins (store this).
Proof. by destruct (loop_frame es this host) as [-> _]. Qed.

(** A name no later extension registers keeps its entry. *)
Lemma loop_key_preserved name es : forall this host,
  (forall e, e ∈ es -> registers this e -> ext_name e <> name) ->
  pluginKeys (forEachExtension es this host).1.2 !! name
  = pluginKeys this !! name.
Proof.
  induction es as [| e rest IH]; intros this host Hfresh; [done |].
  rewrite forEachExtension_cons. cbn [fst snd].
  destruct (step_frame e this host) as (Hs & _).
  rewrite IH.
  - destruct (decide (registers this e)) as [Hreg | Hn].
    + destruct (step_registers e this host Hreg) as (-> & _).
      pose proof (Hfresh e (list_elem_of_here _ _) Hreg).
      by rewrite lookup_insert_ne.
    + by destruct (step_not_registers e this host Hn) as (-> & _).
  - intros e' Hin Hreg. apply Hfresh; [by apply list_elem_of_further |].
    by apply (registers_same_store _ _ _ Hs).
Qed.

Lemma loop_getter_preserved id es : forall this host,
  (forall e, e ∈ es -> registers this e ->
     id <> ByName (ext_name e) /\ id <> ByConstructor (ext_constructor e)) ->
  stateGetters (forEachExtension es this host).1.2 !! id
  = stateGetters this !! id.
Proof.
  induction es as [| e rest IH]; intros this host Hfresh; [done |].
  rewrite forEachExtension_cons. cbn [fst snd].
  destruct (step_frame e this host) as (Hs & _).
  rewrite IH.
  - destruct (decide (registers this e)) as [Hreg | Hn].
    + destruct (step_registers e this host Hreg) as (_ & -> & _).
      destruct (Hfresh e (list_elem_of_here _ _) Hreg) as [Hn Hc].
      by rewrite !lookup_insert_ne.
    + by destruct (step_not_registers e this host Hn) as (_ & -> & _).
  - intros e' Hin Hreg. apply Hfresh; [by apply list_elem_of_further |].
    by apply (registers_same_store _ _ _ Hs).
Qed.

(** Which names have a key after the loop. *)
Lemma loop_keys_domain name es : forall this host,
  is_Some (pluginKeys (forEachExtension es this host).1.2 !! name)
  <-> is_Some (pluginKeys this !! name)
      \/ exists e, e ∈ es /\ registers this e /\ ext_name e = name.
Proof.
  induction es as [| e rest IH]; intros this host.
  - cbn. split; [by left |]. intros [H | (e & Hin & _)]; [done |].
    by apply elem_of_nil in Hin.
  - rewrite forEachExtension_cons. cbn [fst snd].
    destruct (step_frame e this host) as (Hs & _).
    rewrite IH. split.
    + intros [Hsome | (e' & Hin & Hreg & Hname)].
      * destruct (decide (registers this e)) as [Hreg | Hn].
        -- destruct (step_registers e this host Hreg) as (Hk & _).
           rewrite Hk in Hsome.
           apply lookup_insert_is_Some in Hsome as [Heq | [_ Hold]];
             [right | by left].
           exists e. split_and!; [apply list_elem_of_here | done | done].
        -- destruct (step_not_registers e this host Hn) as (Hk & _).
           rewrite Hk in Hsome. by left.
      * right. exists e'.
        split_and!; [by apply list_elem_of_further | | done].
        apply (registers_same_store _ this) in Hreg; done.
    + intros [Hsome | (e' & Hin & Hreg & Hname)].
      * left. destruct (decide (registers this e)) as [Hreg | Hn].
        -- destruct (step_registers e this host Hreg) as (-> & _).
           apply lookup_insert_is_Some.
           destruct (decide (ext_name e = name)); [by left | by right].
        -- by destruct (step_not_registers e this host Hn) as (-> & _).
      * apply elem_of_cons in Hin as [-> | Hin].
        -- left. destruct (step_registers e this host Hreg) as (-> & _).
           rewrite Hname. rewrite lookup_insert_eq. by eexists.
        -- right. exists e'. split_and!; [done | | done].
           by apply (registers_same_store this).
Qed.

(** Which identifiers have a getter after the loop. *)
Lemma loop_getters_domain id es : forall this host,
  is_Some (stateGetters (forEachExtension es this host).1.2 !! id)
  <-> is_Some (stateGetters this !! id)
      \/ exists e, e ∈ es /\ registers this e
                   /\ (id = ByName (ext_name e)
                       \/ id = ByConstructor (ext_constructor e)).
Proof.
  induction es as [| e rest IH]; intros this host.
  - cbn. split; [by left |]. intros [H | (e & Hin & _)]; [done |].
    by apply elem_of_nil in Hin.
  - rewrite forEachExtension_cons. cbn [fst snd].
    destruct (step_frame e this host) as (Hs & _).
    rewrite IH. split.
    + intros [Hsome | (e' & Hin & Hreg & Hid)].
      * destruct (decide (registers this e)) as [Hreg | Hn].
        -- destruct (step_registers e this host Hreg) as (_ & Hg & _).
           rewrite Hg in Hsome.
           apply lookup_insert_is_Some in Hsome as [Heq | [_ Hsome]].
           { right. exists e.
             split_and!; [apply list_elem_of_here | done | by right]. }
           apply lookup_insert_is_Some in Hsome as [Heq | [_ Hold]];
             [| by left].
           right. exists e.
           split_and!; [apply list_elem_of_here | done | by left].
        -- destruct (step_not_registers e this host Hn) as (_ & Hg & _).
           rewrite Hg in Hsome. by left.
      * right. exists e'.
        split_and!; [by apply list_elem_of_further | | done].
        apply (registers_same_store _ this) in Hreg; done.
    + intros [Hsome | (e' & Hin & Hreg & Hid)].
      * left. destruct (decide (registers this e)) as [Hreg | Hn].
        -- destruct (step_registers e this host Hreg) as (_ & -> & _).
           rewrite !lookup_insert_is_Some.
           destruct (decide (ByConstructor (ext_constructor e) = id));
             [by left | right; split; [done |]].
           destruct (decide (ByName (ext_name e) = id)); [by left | by right].
        -- by destruct (step_not_registers e this host Hn) as (_ & -> & _).
      * apply elem_of_cons in Hin as [-> | Hin].
        -- left. destruct (step_registers e this host Hreg) as (_ & -> & _).
           destruct Hid as [-> | ->].
           ++ rewrite lookup_insert_ne by done. rewrite lookup_insert_eq.
              by eexists.
           ++ rewrite lookup_insert_eq. by eexists.
        -- right. exists e'. split_and!; [done | | done].
           by apply (registers_same_store this).
Qed.

(** An extension that does not register leaves its step as it entered. *)
Lemma step_extension_unchanged e this host :
  ~ registers this e -> (createEachExtensionPlugins e this host).1.1 = e.
Proof.
  intros Hn. destruct (not_registers_cases _ _ Hn) as [Hg | Hnone].
  - by rewrite (guard_true_skip _ _ _ Hg).
  - unfold createEachExtensionPlugins. rewrite Hnone.
    destruct (_ || _ || _); [done |].
    destruct (createExternalPlugins e) eqn:Hx; cbn; rewrite ?Hx; done.
Qed.

(** With plugins excluded by the manager the loop does nothing at all. *)
Lemma loop_manager_excluded es : forall this host,
  truthy (managerSettings_exclude_plugins (store this)) = true ->
  forEachExtension es this host = (es, this, host).
Proof.
  induction es as [| e rest IH]; intros this host Hm; [done |].
  rewrite forEachExtension_cons.
  assert (Hg : guard e this = true).
  { unfold guard. rewrite Hm. by rewrite orb_true_r. }
  rewrite (guard_true_skip _ _ _ Hg). cbn [fst snd]. by rewrite IH.
Qed.

Lemma loop_keys_named es : forall this host,
  keys_named (pluginKeys this) ->
  keys_named (pluginKeys (forEachExtension es this host).1.2).
Proof.
  induction es as [| e rest IH]; intros this host Hnamed; [done |].
  rewrite forEachExtension_cons. cbn [fst snd]. apply IH.
  destruct (decide (registers this e)) as [Hreg | Hn].
  - destruct (step_registers e this host Hreg) as (-> & _).
    intros name key Hlook.
    destruct (decide (ext_name e = name)) as [<- | Hne].
    + rewrite lookup_insert_eq in Hlook. by injection Hlook as <-.
    + rewrite lookup_insert_ne in Hlook by done. by apply Hnamed.
  - by destruct (step_not_registers e this host Hn) as (-> & _).
Qed.

Lemma onCreate_pluginKeys es this host :
  pluginKeys (onCreate es this host).1.2
  = pluginKeys (forEachExtension es (updateExtensionStore this) host).1.2.
Proof. by rewrite onCreate_unfold. Qed.

Lemma onCreate_stateGetters es this host :
  stateGetters (onCreate es this host).1.2
  = stateGetters (forEachExtension es (updateExtensionStore this) host).1.2.
Proof. by rewrite onCreate_unfold. Qed.

(** ** The key registry *)

(** X1: after [onCreate] on a new instance, [pluginKeys] has an entry for a
    name exactly when an extension of that name registered; every entry holds
    a key made from the name it is stored under; and the map published under
    the store key [pluginKeys] is that map. *)
Theorem X1_pluginKeys_entries (es : list Extension) (s : Store) (host : Host) :
  let created := (onCreate es (new_PluginsExtension s) host).1.2 in
  (forall name,
     is_Some (pluginKeys created !! name)
     <-> exists e, e ∈ es /\ registers (new_PluginsExtension s) e
                   /\ ext_name e = name)
  /\ keys_named (pluginKeys created)
  /\ store_pluginKeys (store created) = Some (pluginKeys created).
Proof.
  cbn zeta. split_and!.
  - intros name. rewrite onCreate_pluginKeys, loop_keys_domain. cbn.
    rewrite lookup_empty. split.
    + intros [[k Hk] | H]; [discriminate | done].
    + intros H. by right.
  - rewrite onCreate_pluginKeys. apply loop_keys_named.
    intros name key Hlook. cbn in Hlook. by rewrite lookup_empty in Hlook.
  - by rewrite onCreate_unfold.
Qed.

(** X2: when the registering extensions have pairwise distinct names,
    [onCreate] on a new instance leaves as many keys in [pluginKeys] as there
    are registering extensions. *)
Theorem X2_one_key_per_registering_extension (es : list Extension)
    (s : Store) (host : Host) :
  NoDup (ext_name <$> registering (new_PluginsExtension s) es) ->
  size (pluginKeys (onCreate es (new_PluginsExtension s) host).1.2)
  = length (registering (new_PluginsExtension s) es).
Proof.
  intros Hnodup.
  rewrite <- (length_fmap ext_name (registering _ es)).
  rewrite <- (size_list_to_set (C := gset string)) by done.
  rewrite <- size_dom. f_equal. apply set_eq. intros name.
  rewrite elem_of_dom, onCreate_pluginKeys, loop_keys_domain.
  rewrite elem_of_list_to_set, list_elem_of_fmap. cbn.
  rewrite lookup_empty. unfold registering. split.
  - intros [[k Hk] | (e & Hin & Hreg & Hname)]; [discriminate |].
    exists e. split; [done |]. apply list_elem_of_filter. by split.
  - intros (e & Hname & Hin). apply list_elem_of_filter in Hin as [Hreg Hin].
    right. by exists e.
Qed.

Lemma X2_one_key_per_registering_extension_witness :
  size (pluginKeys
          (onCreate [Sample.extA; Sample.extB; Sample.extC]
             (new_PluginsExtension Sample.empty_store) Sample.host0).1.2)
  = 1.
Proof.
  apply (X2_one_key_per_registering_extension
           [Sample.extA; Sample.extB; Sample.extC]
           Sample.empty_store Sample.host0).
  vm_compute. apply NoDup_singleton.
Defined.

(** ** The getter registry *)


(** ** What a registering extension receives *)

Lemma step_registers_extension e this host :
  registers this e ->
  let key := mkPluginKey (ext_name e) (next_key_serial host) in
  (createEachExtensionPlugins e this host).1.1
  = set_getPluginState (mkStateGetter key) (set_pluginKey key e).
Proof.
  intros Hreg. pose proof (registers_guard _ _ Hreg) as Hg.
  destruct Hreg as ([spec Hspec] & _ & _).
  unfold guard in Hg. unfold createEachExtensionPlugins. rewrite Hg, Hspec.
  destruct (createExternalPlugins e) eqn:Hx; cbn; rewrite ?Hx; done.
Qed.

Lemma step_registers_plugin e this host spec :
  registers this e ->
  createPlugin e = Some spec ->
  let key := mkPluginKey (ext_name e) (next_key_serial host) in
  mkPlugin (next_oid host) (spread_with_key spec key)
  ∈ extensionPlugins (createEachExtensionPlugins e this host).1.2.
Proof.
  intros Hreg Hspec. cbn zeta.
  destruct (step_contribution e this host) as [-> _].
  destruct Hreg as (_ & Hm & Ho).
  unfold contribution. rewrite Hspec, Hm, Ho. cbn.
  apply elem_of_app. right. apply list_elem_of_here.
Qed.

(** The state of the class and of the host when the loop reaches the
    extension that follows [es1], and what [onCreate] makes of that
    extension. *)
Lemma onCreate_registering_at es1 E es2 s host spec :
  createPlugin E = Some spec ->
  registers (new_PluginsExtension s) E ->
  let r := onCreate (es1 ++ E :: es2) (new_PluginsExtension s) host in
  let mid :=
    forEachExtension es1 (updateExtensionStore (new_PluginsExtension s)) host in
  let k := mkPluginKey (ext_name E) (next_key_serial mid.2) in
  r.1.1 !! length es1
  = Some (set_getPluginState (mkStateGetter k) (set_pluginKey k E))
  /\ mkPlugin (next_oid mid.2) (spread_with_key spec k) ∈ plugins r.1.2
  /\ ((forall e, e ∈ es2 -> registers (new_PluginsExtension s) e ->
         ext_name e <> ext_name E) ->
      pluginKeys r.1.2 !! ext_name E = Some k
      /\ stateGetters r.1.2 !! ByName (ext_name E) = Some (mkStateGetter k))
  /\ ((forall e, e ∈ es2 -> registers (new_PluginsExtension s) e ->
         ext_constructor e <> ext_constructor E) ->
      stateGetters r.1.2 !! ByConstructor (ext_constructor E)
      = Some (mkStateGetter k)).
Proof.
  intros Hspec Hreg. cbn zeta.
  set (start := updateExtensionStore (new_PluginsExtension s)).
  set (mid := forEachExtension es1 start host).
  assert (Hmid : registers mid.1.2 E).
  { apply (registers_same_settings start); [| done].
    symmetry. apply loop_settings. }
  pose proof (step_registers_extension E mid.1.2 mid.2 Hmid) as Hext.
  pose proof (step_registers_plugin E mid.1.2 mid.2 spec Hmid Hspec) as Hp.
  destruct (step_registers E mid.1.2 mid.2 Hmid) as (Hkeys & Hgetters & _).
  destruct (step_frame E mid.1.2 mid.2) as (Hstore & _).
  cbn zeta in Hext, Hp, Hkeys, Hgetters.
  set (one := createEachExtensionPlugins E mid.1.2 mid.2) in *.
  assert (Hloop : forEachExtension (es1 ++ E :: es2) start host
            = (mid.1.1 ++ one.1.1 :: (forEachExtension es2 one.1.2 one.2).1.1,
               (forEachExtension es2 one.1.2 one.2).1.2,
               (forEachExtension es2 one.1.2 one.2).2)).
  { rewrite forEachExtension_app. cbn zeta.
    by rewrite forEachExtension_cons. }
  assert (Hlater : forall e, registers one.1.2 e ->
            registers (new_PluginsExtension s) e).
  { intros e. apply registers_same_settings.
    rewrite Hstore. unfold mid. by rewrite loop_settings. }
  rewrite onCreate_unfold. fold start. rewrite Hloop. cbn [fst snd].
  split_and!.
  - rewrite lookup_app_r by (unfold mid; by rewrite loop_length).
    unfold mid at 1. rewrite loop_length, Nat.sub_diag. cbn. by rewrite Hext.
  - rewrite addPlugins_plugins. apply elem_of_app. right.
    change (extensionPlugins (set_store ?st ?t)) with (extensionPlugins t).
    rewrite loop_contributions. apply elem_of_app. by left.
  - intros Hfresh.
    change (pluginKeys (addPlugins ?ps (set_store ?st ?t)))
      with (pluginKeys t).
    change (stateGetters (addPlugins ?ps (set_store ?st ?t)))
      with (stateGetters t).
    split.
    + rewrite loop_key_preserved by (intros e He Hr; by apply Hfresh, Hlater).
      rewrite Hkeys. by rewrite lookup_insert_eq.
    + rewrite loop_getter_preserved.
      * rewrite Hgetters. rewrite lookup_insert_ne by done.
        by rewrite lookup_insert_eq.
      * intros e He Hr. split; [| done].
        intros [= Heq]. by apply (Hfresh e He (Hlater e Hr)).
  - intros Hfresh.
    change (stateGetters (addPlugins ?ps (set_store ?st ?t)))
      with (stateGetters t).
    rewrite loop_getter_preserved.
    + rewrite Hgetters. by rewrite lookup_insert_eq.
    + intros e He Hr. split; [done |].
      intros [= Heq]. by apply (Hfresh e He (Hlater e Hr)).
Qed.

(** X4: an extension that declares [createPlugin] and is excluded by
    neither setting leaves [onCreate] with a key made from its name in
    [pluginKey] and a getter bound to that key in [getPluginState], and a
    plugin built from what its [createPlugin] returned, carrying that key,
    is in the published list. *)
Theorem X4_registering_extension_is_equipped (es1 es2 : list Extension)
    (E : Extension) (s : Store) (host : Host) (spec : PluginSpec) :
  createPlugin E = Some spec ->
  registers (new_PluginsExtension s) E ->
  let r := onCreate (es1 ++ E :: es2) (new_PluginsExtension s) host in
  exists E' k p,
    r.1.1 !! length es1 = Some E'
    /\ pluginKey E' = Some k
    /\ getPluginState_field E' = Some (mkStateGetter k)
    /\ key_name k = ext_name E
    /\ p ∈ plugins r.1.2
    /\ spec_key (plugin_spec p) = Some k
    /\ spec_state (plugin_spec p) = spec_state spec
    /\ spec_rest (plugin_spec p) = spec_rest spec.
Proof.
  intros Hspec Hreg. cbn zeta.
  destruct (onCreate_registering_at es1 E es2 s host spec Hspec Hreg)
    as (Hat & Hp & _).
  eexists _, _, _. split_and!; [exact Hat | | | | exact Hp | | |]; done.
Qed.

Lemma X4_registering_extension_is_equipped_witness :
  let r := onCreate [Sample.extA; Sample.extB; Sample.extC]
             (new_PluginsExtension Sample.empty_store) Sample.host0 in
  exists E' k p,
    r.1.1 !! 1 = Some E'
    /\ pluginKey E' = Some k
    /\ getPluginState_field E' = Some (mkStateGetter k)
    /\ p ∈ plugins r.1.2
    /\ spec_key (plugin_spec p) = Some k.
Proof.
  cbn zeta.
  destruct (X4_registering_extension_is_equipped
              [Sample.extA] [Sample.extC] Sample.extB
              Sample.empty_store Sample.host0 Sample.spec1)
    as (E' & k & p & Hat & Hk & Hg & _ & Hp & Hkey & _).
  - reflexivity.
  - unfold registers. cbn. split_and!; [by eexists | done | done].
  - exists E', k, p. split_and!;
      [exact Hat | exact Hk | exact Hg | exact Hp | exact Hkey].
Defined.

(** X5: the registries agree with what the extension carries, the last
    registration winning.  When no registering extension later in the list
    bears the name of [E], the entry of [pluginKeys] for that name is the key
    attached to [E] and the getter stored under the name is the getter
    attached to [E], so [getPluginState(E.name)] is a call of
    [E.getPluginState]; the same holds for the constructor when no later
    registering extension bears it.  Extensions earlier in the list may bear
    either. *)
Theorem X5_registry_holds_the_attached_key (es1 es2 : list Extension)
    (E : Extension) (s : Store) (host : Host) (spec : PluginSpec) :
  createPlugin E = Some spec ->
  registers (new_PluginsExtension s) E ->
  let r := onCreate (es1 ++ E :: es2) (new_PluginsExtension s) host in
  exists E' g,
    r.1.1 !! length es1 = Some E'
    /\ getPluginState_field E' = Some g
    /\ pluginKey E' = Some (getter_key g)
    /\ ((forall e, e ∈ es2 -> registers (new_PluginsExtension s) e ->
           ext_name e <> ext_name E) ->
        pluginKeys r.1.2 !! ext_name E = pluginKey E'
        /\ stateGetters r.1.2 !! ByName (ext_name E) = Some g
        /\ forall later,
             stateGetters later = stateGetters r.1.2 ->
             getStateByName (ByName (ext_name E)) later = call_getter g later)
    /\ ((forall e, e ∈ es2 -> registers (new_PluginsExtension s) e ->
           ext_constructor e <> ext_constructor E) ->
        stateGetters r.1.2 !! ByConstructor (ext_constructor E) = Some g
        /\ forall later,
             stateGetters later = stateGetters r.1.2 ->
             getStateByName (ByConstructor (ext_constructor E)) later
             = call_getter g later).
Proof.
  intros Hspec Hreg. cbn zeta.
  destruct (onCreate_registering_at es1 E es2 s host spec Hspec Hreg)
    as (Hat & _ & Hname & Hctor).
  eexists _, _. split_and!; [exact Hat | done | done | |].
  - intros Hfresh. destruct (Hname Hfresh) as [Hk Hg].
    split_and!; [done | done |].
    intros later Hlater. apply getStateByName_registered. congruence.
  - intros Hfresh. pose proof (Hctor Hfresh) as Hg. split; [done |].
    intros later Hlater. apply getStateByName_registered. congruence.
Qed.

Lemma X5_registry_holds_the_attached_key_witness :
  let r := onCreate [Sample.extA; Sample.extB; Sample.extC]
             (new_PluginsExtension Sample.empty_store) Sample.host0 in
  exists E',
    r.1.1 !! 1 = Some E'
    /\ pluginKeys r.1.2 !! "B" = pluginKey E'
    /\ stateGetters r.1.2 !! ByName "B" = getPluginState_field E'
    /\ stateGetters r.1.2 !! ByConstructor 2%positive = getPluginState_field E'.
Proof.
  cbn zeta.
  destruct (X5_registry_holds_the_attached_key
              [Sample.extA] [Sample.extC] Sample.extB
              Sample.empty_store Sample.host0 Sample.spec1)
    as (E' & g & Hat & Hg & _ & Hname & Hctor).
  - reflexivity.
  - unfold registers. cbn. split_and!; [by eexists | done | done].
  - assert (Hnone : forall e, e ∈ [Sample.extC] ->
              registers (new_PluginsExtension Sample.empty_store) e -> False).
    { intros e He [[sp Hsp] _]. apply list_elem_of_In in He. cbn in He.
      destruct He as [<- | []]. discriminate Hsp. }
    destruct Hname as (Hk & Hn & _);
      [intros e He Hr; destruct (Hnone e He Hr) |].
    destruct Hctor as (Hc & _);
      [intros e He Hr; destruct (Hnone e He Hr) |].
    exists E'. rewrite Hg. split_and!;
      [exact Hat | exact Hk | exact Hn | exact Hc].
Defined.

Lemma onCreate_store_reads es this host :
  let created := (onCreate es this host).1.2 in
  view (store created) = view (store this)
  /\ phase (store created) = phase (store this)
  /\ managerSettings_exclude_plugins (store created)
     = managerSettings_exclude_plugins (store this).
Proof.
  cbn zeta. rewrite onCreate_unfold. cbn.
  destruct (loop_frame es (updateExtensionStore this) host) as [-> _].
  done.
Qed.

(** X6: a getter that is registered cannot be used before the view is
    attached.  After [onCreate] on a store without a view,
    [getPluginState] for the name or the constructor of a registering
    extension throws; what it throws is not the not-found error, and no
    value is returned. *)
Theorem X6_getPluginState_before_view_throws (es : list Extension)
    (s : Store) (host : Host) (E : Extension) :
  E ∈ es ->
  registers (new_PluginsExtension s) E ->
  view s = None ->
  let created := (onCreate es (new_PluginsExtension s) host).1.2 in
  exists e,
    e <> RemirrorError None not_found_message
    /\ getStateByName (ByName (ext_name E)) created = Throw e
    /\ getStateByName (ByConstructor (ext_constructor E)) created = Throw e.
Proof.
  intros Hin Hreg Hview. cbn zeta. eexists. split; [| split].
  2, 3: match goal with
        | |- getStateByName ?id ?created = _ =>
            assert (is_Some (stateGetters created !! id)) as [g Hg];
              [ rewrite onCreate_stateGetters, loop_getters_domain;
                right; exists E; split_and!; [done | done | by auto]
              | rewrite (getStateByName_registered _ g) by done;
                unfold call_getter, getStoreKey_view;
                destruct (onCreate_store_reads es (new_PluginsExtension s) host)
                  as (-> & _); cbn; rewrite Hview; reflexivity ]
        end.
  discriminate.
Qed.

Lemma X6_getPluginState_before_view_throws_witness :
  exists e,
    e <> RemirrorError None not_found_message
    /\ getStateByName (ByName "B")
         (onCreate [Sample.extA; Sample.extB; Sample.extC]
            (new_PluginsExtension Sample.empty_store) Sample.host0).1.2
       = Throw e.
Proof.
  destruct (X6_getPluginState_before_view_throws
              [Sample.extA; Sample.extB; Sample.extC]
              Sample.empty_store Sample.host0 Sample.extB)
    as (e & Hne & Hname & _).
  - apply list_elem_of_further, list_elem_of_here.
  - unfold registers. cbn. split_and!; [by eexists | done | done].
  - reflexivity.
  - exists e. split; [exact Hne | exact Hname].
Defined.

(** ** Exclusion by the manager, and what the loop keeps *)

(** X7: when the manager setting excludes plugins, [onCreate] on a new
    instance creates nothing whatever the extensions declare: the
    extensions and the host come back as they were, both registries are
    empty, and what is published is the empty plugin list and the empty key
    map. *)
Theorem X7_manager_exclusion_collects_nothing (es : list Extension)
    (s : Store) (host : Host) :
  managerSettings_exclude_plugins s = Some true ->
  let r := onCreate es (new_PluginsExtension s) host in
  r.1.1 = es
  /\ r.2 = host
  /\ plugins r.1.2 = []
  /\ extensionPlugins r.1.2 = []
  /\ pluginKeys r.1.2 = ∅
  /\ stateGetters r.1.2 = ∅
  /\ store_plugins (store r.1.2) = Some []
  /\ store_pluginKeys (store r.1.2) = Some ∅.
Proof.
  intros Hm. cbn zeta. rewrite onCreate_unfold.
  rewrite loop_manager_excluded by (cbn; by rewrite Hm).
  cbn. by split_and!.
Qed.

Lemma X7_manager_exclusion_collects_nothing_witness :
  let s := mkStore (Some true) ManagerPhase.Create None None None None ∅ in
  plugins (onCreate [Sample.extA; Sample.extB; Sample.extC]
             (new_PluginsExtension s) Sample.host0).1.2 = [].
Proof.
  cbn zeta.
  destruct (X7_manager_exclusion_collects_nothing
              [Sample.extA; Sample.extB; Sample.extC]
              (mkStore (Some true) ManagerPhase.Create None None None None ∅)
              Sample.host0)
    as (_ & _ & Hplugins & _).
  - reflexivity.
  - exact Hplugins.
Defined.

(** X8: [onCreate] returns as many extensions as it was given, in the same
    positions.  Each keeps its name, constructor, creator methods, options
    and [plugin] member, and an extension that does not register is not
    touched at all. *)
Theorem X8_extensions_keep_their_identity (es : list Extension)
    (this : PluginsExtension) (host : Host) :
  let r := onCreate es this host in
  length r.1.1 = length es
  /\ forall i e,
       es !! i = Some e ->
       exists e',
         r.1.1 !! i = Some e'
         /\ ext_name e' = ext_name e
         /\ ext_constructor e' = ext_constructor e
         /\ createPlugin e' = createPlugin e
         /\ createExternalPlugins e' = createExternalPlugins e
         /\ options_exclude_plugins e' = options_exclude_plugins e
         /\ plugin e' = plugin e
         /\ (~ registers this e -> e' = e).
Proof.
  cbn zeta. rewrite onCreate_unfold. cbn [fst snd]. split.
  - apply loop_length.
  - intros i e Hi.
    destruct (loop_extension_at es (updateExtensionStore this) host i e Hi)
      as (this_i & host_i & Hs & Hat & _).
    destruct (step_frame e this_i host_i)
      as (_ & _ & Hn & Hc & Hcp & Hx & Ho & Hp).
    eexists. split_and!; [exact Hat | done | done | done | done | done | done |].
    intros Hnot. apply step_extension_unchanged.
    intros Hreg. apply Hnot.
    apply (registers_same_settings this_i); [by rewrite Hs | done].
Qed.

Lemma X8_extensions_keep_their_identity_witness :
  (onCreate [Sample.extA; Sample.extB; Sample.extC]
     (new_PluginsExtension Sample.empty_store) Sample.host0).1.1 !! 2
  = Some Sample.extC.
Proof.
  destruct (proj2 (X8_extensions_keep_their_identity
                     [Sample.extA; Sample.extB; Sample.extC]
                     (new_PluginsExtension Sample.empty_store) Sample.host0)
              2 Sample.extC)
    as (e' & Hat & _ & _ & _ & _ & _ & _ & Hsame).
  - reflexivity.
  - rewrite Hat. f_equal. apply Hsame.
    intros [[sp Hsp] _]. discriminate Hsp.
Defined.

(** ** Changing the published list *)

(** X9: two [addPlugins] calls in a row leave the class exactly as one call
    with the arguments of the first followed by those of the second; a call
    without arguments keeps the list and publishes it. *)
Theorem X9_addPlugins_composes (this : PluginsExtension) (ps qs : list Plugin) :
  addPlugins qs (addPlugins ps this) = addPlugins (ps ++ qs) this
  /\ plugins (addPlugins [] this) = plugins this
  /\ store_plugins (store (addPlugins [] this)) = Some (plugins this).
Proof.
  unfold addPlugins. cbn. rewrite app_nil_r, <- app_assoc. done.
Qed.

Lemma map_to_constant {A B} (f : A -> B) (b : B) (l : list A) :
  (forall a, a ∈ l -> f a = b) -> map f l = replicate (length l) b.
Proof.
  induction l as [| a l IH]; intros Hall; [done |].
  cbn. rewrite (Hall a) by apply list_elem_of_here.
  rewrite IH; [done |]. intros a' Hin. by apply Hall, list_elem_of_further.
Qed.

(** X10: what [replacePlugin] makes of a list that does not hold
    [original].  Every entry becomes [original], so the published list is as
    many copies of [original] as it had entries; the same happens when a
    plugin is replaced by itself, whatever the list holds. *)
Theorem X10_replacePlugin_floods_with_original (this : PluginsExtension)
    (original replacement : Plugin) :
  ((forall p, p ∈ plugins this -> same_object p original = false) ->
   plugins (replacePlugin original replacement this)
   = replicate (length (plugins this)) original)
  /\ plugins (replacePlugin original original this)
     = replicate (length (plugins this)) original.
Proof.
  split.
  - intros Habsent. rewrite replacePlugin_plugins.
    apply map_to_constant. intros p Hp. by rewrite (Habsent p Hp).
  - rewrite replacePlugin_plugins. apply map_to_constant.
    intros p _. by destruct (same_object p original).
Qed.

Lemma X10_replacePlugin_floods_with_original_witness :
  plugins (replacePlugin Sample.pd Sample.pc
             (Sample.with_plugins [Sample.pa; Sample.pb; Sample.pc]
                Sample.empty_store))
  = [Sample.pd; Sample.pd; Sample.pd].
Proof.
  apply (proj1 (X10_replacePlugin_floods_with_original
                  (Sample.with_plugins [Sample.pa; Sample.pb; Sample.pc]
                     Sample.empty_store)
                  Sample.pd Sample.pc)).
  intros p Hp. apply list_elem_of_In in Hp. cbn in Hp.
  destruct Hp as [<- | [<- | [<- | []]]]; reflexivity.
Defined.

(** ** Reconfiguration in every case *)

Lemma reconfigure_duplicates s ps :
  ~ NoDup (plugin_key <$> ps) -> reconfigure s ps = None.
Proof. intros Hdup. unfold reconfigure. by rewrite bool_decide_eq_false_2. Qed.

Lemma reconfigure_distinct s ps :
  NoDup (plugin_key <$> ps) -> is_Some (reconfigure s ps).
Proof. intros Hnd. unfold reconfigure. by rewrite bool_decide_eq_true_2. Qed.

(** X11: [reconfigureStatePlugins] never returns and never writes.  Every
    call throws, and the class at the throw is the class at the call.  Below
    the view phase the error is the phase error.  From the view phase on it
    is a [TypeError] when no view is attached, the [RangeError] of
    [state.reconfigure] when two entries of the published list have the same
    key, one plugin held twice included, and otherwise the [TypeError] of
    the call of [updateState] without a receiver. *)
Theorem X11_reconfigure_always_throws (this : PluginsExtension) :
  (exists e, reconfigureStatePlugins this = Abrupt e this)
  /\ (phase (store this) < ManagerPhase.EditorView ->
      reconfigureStatePlugins this
      = Abrupt (RemirrorError (Some MANAGER_PHASE_ERROR) phase_message) this)
  /\ (ManagerPhase.EditorView <= phase (store this) ->
      view (store this) = None ->
      reconfigureStatePlugins this = Abrupt TypeError this)
  /\ (forall v,
        ManagerPhase.EditorView <= phase (store this) ->
        view (store this) = Some v ->
        ~ NoDup (plugin_key <$> plugins this) ->
        reconfigureStatePlugins this = Abrupt RangeError this)
  /\ (forall v,
        ManagerPhase.EditorView <= phase (store this) ->
        view (store this) = Some v ->
        NoDup (plugin_key <$> plugins this) ->
        reconfigureStatePlugins this = Abrupt TypeError this).
Proof.
  split_and!.
  - apply reconfigureStatePlugins_throws.
  - apply reconfigureStatePlugins_early.
  - intros Hle Hv. unfold reconfigureStatePlugins, invariant.
    destruct (Nat.leb_spec ManagerPhase.EditorView (phase (store this)));
      [| lia].
    by rewrite Hv.
  - intros v Hle Hv Hdup.
    rewrite (reconfigureStatePlugins_viewed this v Hle Hv).
    by rewrite reconfigure_duplicates.
  - intros v Hle Hv Hnd.
    rewrite (reconfigureStatePlugins_viewed this v Hle Hv).
    by destruct (reconfigure_distinct (view_state v) (plugins this) Hnd)
      as [s' ->].
Qed.

Lemma X11_reconfigure_always_throws_witness :
  let early := Sample.with_plugins [Sample.pa] Sample.empty_store in
  let blind :=
    Sample.with_plugins [Sample.pa]
      (mkStore None ManagerPhase.EditorView None None None None ∅) in
  let twice := Sample.with_plugins [Sample.pd; Sample.pd] Sample.viewed_store in
  let late := Sample.with_plugins [Sample.pa; Sample.pb] Sample.viewed_store in
  reconfigureStatePlugins early
  = Abrupt (RemirrorError (Some MANAGER_PHASE_ERROR) phase_message) early
  /\ reconfigureStatePlugins blind = Abrupt TypeError blind
  /\ reconfigureStatePlugins twice = Abrupt RangeError twice
  /\ reconfigureStatePlugins late = Abrupt TypeError late.
Proof.
  cbn zeta. split_and!.
  - apply (proj1 (proj2 (X11_reconfigure_always_throws
                           (Sample.with_plugins [Sample.pa] Sample.empty_store)))).
    cbn. unfold ManagerPhase.Create, ManagerPhase.EditorView. lia.
  - apply (proj1 (proj2 (proj2 (X11_reconfigure_always_throws
             (Sample.with_plugins [Sample.pa]
                (mkStore None ManagerPhase.EditorView None None None None ∅)))))).
    + cbn. lia.
    + reflexivity.
  - apply (proj1 (proj2 (proj2 (proj2 (X11_reconfigure_always_throws
             (Sample.with_plugins [Sample.pd; Sample.pd] Sample.viewed_store)))))
             (mkEditorView Sample.doc0)).
    + cbn. lia.
    + reflexivity.
    + cbn. intros Hnd. apply NoDup_cons in Hnd as [Hnotin _].
      apply Hnotin, list_elem_of_here.
  - apply (proj2 (proj2 (proj2 (proj2 (X11_reconfigure_always_throws
             (Sample.with_plugins [Sample.pa; Sample.pb] Sample.viewed_store)))))
             (mkEditorView Sample.doc0)).
    + cbn. lia.
    + reflexivity.
    + cbn. apply NoDup_cons. split.
      * intros Hin. apply list_elem_of_In in Hin. cbn in Hin.
        destruct Hin as [H | []]. discriminate H.
      * apply NoDup_singleton.
Defined.

(** X12: a change of the published list does not reach the live state.
    After [addPlugins] or [replacePlugin], [reconfigureStatePlugins] throws
    and the view is the view from before the change.  When [replacePlugin]
    is given an [original] that a list of two or more entries does not hold,
    the list becomes copies of [original], and in the view phase with the
    view attached the error is the [RangeError] of [state.reconfigure]. *)
Theorem X12_changes_do_not_go_live (this : PluginsExtension)
    (ps : list Plugin) (original replacement : Plugin) :
  view (store (completion_state
                 (reconfigureStatePlugins (addPlugins ps this))))
  = view (store this)
  /\ view (store (completion_state
                    (reconfigureStatePlugins
                       (replacePlugin original replacement this))))
     = view (store this)
  /\ (forall v,
        ManagerPhase.EditorView <= phase (store this) ->
        view (store this) = Some v ->
        2 <= length (plugins this) ->
        (forall p, p ∈ plugins this -> same_object p original = false) ->
        reconfigureStatePlugins (replacePlugin original replacement this)
        = Abrupt RangeError (replacePlugin original replacement this)).
Proof.
  split_and!.
  - by destruct (reconfigureStatePlugins_throws (addPlugins ps this))
      as [e ->].
  - by destruct (reconfigureStatePlugins_throws
                   (replacePlugin original replacement this)) as [e ->].
  - intros v Hle Hv Hlen Habsent.
    rewrite (reconfigureStatePlugins_viewed _ v) by done.
    rewrite reconfigure_duplicates; [done |].
    rewrite replacePlugin_plugins.
    rewrite (map_to_constant _ original)
      by (intros p Hp; by rewrite (Habsent p Hp)).
    destruct (plugins this) as [| p1 [| p2 rest]]; cbn in Hlen; [lia | lia |].
    cbn. intros Hnd. apply NoDup_cons in Hnd as [Hnotin _].
    apply Hnotin, list_elem_of_here.
Qed.

Lemma X12_changes_do_not_go_live_witness :
  let this := Sample.with_plugins [Sample.pa; Sample.pb] Sample.viewed_store in
  reconfigureStatePlugins (replacePlugin Sample.pd Sample.pc this)
  = Abrupt RangeError (replacePlugin Sample.pd Sample.pc this).
Proof.
  cbn zeta.
  apply (proj2 (proj2 (X12_changes_do_not_go_live
                         (Sample.with_plugins [Sample.pa; Sample.pb]
                            Sample.viewed_store)
                         [] Sample.pd Sample.pc))
           (mkEditorView Sample.doc0)).
  - cbn. lia.
  - reflexivity.
  - cbn. lia.
  - intros p Hp. apply list_elem_of_In in Hp. cbn in Hp.
    destruct Hp as [<- | [<- | []]]; reflexivity.
Defined.

(** ** What [onCreate] publishes *)

Lemma onCreate_published_list es this host :
  plugins (onCreate es this host).1.2
  = plugins this
    ++ extensionPlugins this
    ++ contributions (truthy (managerSettings_exclude_plugins (store this)))
         es host.
Proof.
  rewrite onCreate_unfold. cbn [fst snd].
  pose proof (loop_contributions es (updateExtensionStore this) host) as Hc.
  destruct (loop_frame es (updateExtensionStore this) host) as [_ Hp].
  cbn in Hc, Hp. unfold addPlugins. cbn. by rewrite Hp, Hc.
Qed.

(** X13: [onCreate] on any instance.  It resets the store key [plugins] and
    then publishes the list the instance had, followed by everything in its
    extension-plugin list, old entries first and the contributions of this
    run last; it binds the four callables in the extension store, keeping
    the other entries, and sets the store keys [pluginKeys] and
    [getPluginState]; it leaves the phase, the view and the manager settings
    alone. *)
Theorem X13_onCreate_publication (es : list Extension)
    (this : PluginsExtension) (host : Host) :
  let created := (onCreate es this host).1.2 in
  let collected :=
    extensionPlugins this
    ++ contributions (truthy (managerSettings_exclude_plugins (store this)))
         es host in
  extensionPlugins created = collected
  /\ plugins created = plugins this ++ collected
  /\ store_plugins (store created) = Some (plugins this ++ collected)
  /\ store_pluginKeys (store created) = Some (pluginKeys created)
  /\ store_getPluginState (store created) = Some GetStateByName
  /\ extensionStore (store created) !! "addPlugins" = Some AddPlugins
  /\ extensionStore (store created) !! "replacePlugin" = Some ReplacePlugin
  /\ extensionStore (store created) !! "reconfigureStatePlugins"
     = Some ReconfigureStatePlugins
  /\ extensionStore (store created) !! "getPluginState" = Some GetStateByName
  /\ (forall key,
        key ∉ ["addPlugins"; "replacePlugin"; "reconfigureStatePlugins";
               "getPluginState"] ->
        extensionStore (store created) !! key
        = extensionStore (store this) !! key)
  /\ phase (store created) = phase (store this)
  /\ view (store created) = view (store this)
  /\ managerSettings_exclude_plugins (store created)
     = managerSettings_exclude_plugins (store this).
Proof.
  cbn zeta.
  destruct (onCreate_store_reads es this host) as (Hview & Hphase & Hm).
  rewrite onCreate_unfold in *. cbn [fst snd] in *.
  pose proof (loop_contributions es (updateExtensionStore this) host) as Hc.
  destruct (loop_frame es (updateExtensionStore this) host) as [Hs Hp].
  cbn in Hc, Hp.
  unfold addPlugins. cbn. rewrite Hs, Hp, Hc. cbn.
  split_and!; try done; try (by simplify_map_eq).
  intros key Hkey.
  rewrite !lookup_insert_ne; [done | | | |];
    intros <-; apply Hkey; set_solver.
Qed.

Lemma X13_onCreate_publication_witness :
  extensionStore
    (store (onCreate [Sample.extA]
              (new_PluginsExtension Sample.empty_store) Sample.host0).1.2)
    !! "other"
  = None.
Proof.
  destruct (X13_onCreate_publication [Sample.extA]
              (new_PluginsExtension Sample.empty_store) Sample.host0)
    as (_ & _ & _ & _ & _ & _ & _ & _ & _ & Hother & _).
  rewrite (Hother "other"); [reflexivity |].
  intros Hin. apply list_elem_of_In in Hin. cbn in Hin.
  destruct Hin as [H | [H | [H | [H | []]]]]; discriminate H.
Defined.

(** ** Where the published plugins come from *)

Lemma contribution_elem m e host p :
  p ∈ (contribution m e host).1 ->
  m = false
  /\ truthy (options_exclude_plugins e) = false
  /\ ((exists external,
         createExternalPlugins e = Some external /\ p ∈ external)
      \/ (exists spec k,
            createPlugin e = Some spec
            /\ plugin_spec p = spread_with_key spec k
            /\ key_name k = ext_name e)).
Proof.
  unfold contribution.
  destruct (createPlugin e) as [spec |] eqn:Hc,
    (createExternalPlugins e) as [ext |] eqn:Hx, m,
    (truthy (options_exclude_plugins e)); cbn;
    try (intros H; by apply elem_of_nil in H).
  - intros [-> | Hin]%elem_of_cons; split_and!; try done.
    + right. by eexists _, _.
    + left. by eexists.
  - intros [-> | Hin]%elem_of_cons; [| by apply elem_of_nil in Hin].
    split_and!; try done. right. by eexists _, _.
  - intros Hin. split_and!; try done. left. by eexists.
Qed.

Lemma contributions_elem m es : forall host p,
  p ∈ contributions m es host ->
  exists e host', e ∈ es /\ p ∈ (contribution m e host').1.
Proof.
  induction es as [| e rest IH]; intros host p Hp;
    [by apply elem_of_nil in Hp |].
  cbn in Hp. destruct (contribution m e host) as [ps host1] eqn:Hc.
  apply elem_of_app in Hp as [Hp | Hp].
  - exists e, host. split; [apply list_elem_of_here | by rewrite Hc].
  - destruct (IH host1 p Hp) as (e' & host' & Hin & Hp').
    exists e', host'. split; [by apply list_elem_of_further | done].
Qed.

Lemma contributions_external m es : forall host e external p,
  e ∈ es ->
  m = false ->
  truthy (options_exclude_plugins e) = false ->
  createExternalPlugins e = Some external ->
  p ∈ external ->
  p ∈ contributions m es host.
Proof.
  induction es as [| e0 rest IH]; intros host e external p Hin Hm Ho Hx Hp;
    [by apply elem_of_nil in Hin |].
  cbn. destruct (contribution m e0 host) as [ps host1] eqn:Hc.
  apply elem_of_app. apply elem_of_cons in Hin as [<- | Hin].
  - left. unfold contribution in Hc. rewrite Hx, Hm, Ho in Hc.
    destruct (createPlugin e); cbn in Hc; injection Hc as <- _.
    + by apply list_elem_of_further.
    + done.
  - right. by apply (IH host1 e external).
Qed.

(** X14: nothing is published that no extension contributed.  After
    [onCreate] on a new instance every published plugin is an external
    plugin of an extension of the list, or was built from what the
    [createPlugin] of an extension of the list returned and carries a key
    made from that extension's name; in both cases the extension is
    excluded by neither setting. *)
Theorem X14_published_plugins_have_a_source (es : list Extension)
    (s : Store) (host : Host) (p : Plugin) :
  p ∈ plugins (onCreate es (new_PluginsExtension s) host).1.2 ->
  exists e,
    e ∈ es
    /\ truthy (managerSettings_exclude_plugins s) = false
    /\ truthy (options_exclude_plugins e) = false
    /\ ((exists external,
           createExternalPlugins e = Some external /\ p ∈ external)
        \/ (exists spec k,
              createPlugin e = Some spec
              /\ plugin_spec p = spread_with_key spec k
              /\ key_name k = ext_name e)).
Proof.
  intros Hp. rewrite onCreate_published_list in Hp. cbn in Hp.
  apply contributions_elem in Hp as (e & host' & Hin & Hp).
  apply contribution_elem in Hp as (Hm & Ho & Hsrc).
  exists e. by split_and!.
Qed.

Lemma X14_published_plugins_have_a_source_witness :
  exists e,
    e ∈ [Sample.extA; Sample.extB; Sample.extC]
    /\ ((exists external,
           createExternalPlugins e = Some external /\ Sample.pa ∈ external)
        \/ (exists spec k,
              createPlugin e = Some spec
              /\ plugin_spec Sample.pa = spread_with_key spec k
              /\ key_name k = ext_name e)).
Proof.
  destruct (X14_published_plugins_have_a_source
              [Sample.extA; Sample.extB; Sample.extC]
              Sample.empty_store Sample.host0 Sample.pa)
    as (e & Hin & _ & _ & Hsrc).
  - vm_compute. apply list_elem_of_further, list_elem_of_here.
  - exists e. split; [exact Hin | exact Hsrc].
Defined.

(** X15: every external plugin of an extension that is excluded by neither
    setting is published by [onCreate], whether or not the extension also
    declares [createPlugin]. *)
Theorem X15_external_plugins_are_published (es : list Extension)
    (this : PluginsExtension) (host : Host) (e : Extension)
    (external : list Plugin) (p : Plugin) :
  e ∈ es ->
  managerSettings_exclude_plugins (store this) <> Some true ->
  options_exclude_plugins e <> Some true ->
  createExternalPlugins e = Some external ->
  p ∈ external ->
  p ∈ plugins (onCreate es this host).1.2
  /\ store_plugins (store (onCreate es this host).1.2)
     = Some (plugins (onCreate es this host).1.2).
Proof.
  intros Hin Hm Ho Hx Hp. split.
  - rewrite onCreate_published_list. rewrite !elem_of_app. right. right.
    apply (contributions_external _ es host e external); try done.
    + by destruct (managerSettings_exclude_plugins (store this)) as [[|] |].
    + by destruct (options_exclude_plugins e) as [[|] |].
  - by rewrite onCreate_unfold.
Qed.

Lemma X15_external_plugins_are_published_witness :
  Sample.pb
  ∈ plugins (onCreate [Sample.extA; Sample.extB; Sample.extC]
               (new_PluginsExtension Sample.empty_store) Sample.host0).1.2.
Proof.
  apply (X15_external_plugins_are_published
           [Sample.extA; Sample.extB; Sample.extC]
           (new_PluginsExtension Sample.empty_store) Sample.host0
           Sample.extC [Sample.pa; Sample.pb] Sample.pb).
  - do 2 apply list_elem_of_further. apply list_elem_of_here.
  - discriminate.
  - discriminate.
  - reflexivity.
  - apply list_elem_of_further, list_elem_of_here.
Defined.
